(** * pytorch_helpers: image/mask transforms and the segmentation dataset

    A shallow embedding of [pytorch_helpers/transforms.py] and
    [pytorch_helpers/datasets/segmentation.py].

    - numpy arrays are a shape together with an indexing function, which is
      how numpy views behave (flips, slices and transposes only remap
      indices);
    - Python exceptions are the [Raise] branch of [result]; a raised
      exception carries no state, and what the code prints before
      re-raising is not modelled;
    - the global [np.random] state is a tape of uniform draws in the
      [world] that every call threads;
    - the mutable fields of a transformer instance ([_patch_coordinate_h],
      [_augmentor.rotate], ...) are fields of the [transformer] value, and
      every method returns the updated instance;
    - cv2, imgaug and the image loader are collaborators outside the
      repository: they are the fields of a [Backend], together with the two
      points on which numpy's behaviour is not fixed by the source (indexing
      with a list of slices, and the double arithmetic of
      [np.random.uniform]). *)

From Stdlib Require Import String.
From Stdlib Require Import List ZArith QArith Qround Bool Lia Lqa.
Import ListNotations.

Set Implicit Arguments.

(** ** Exceptions and fallible computations *)

Inductive exn : Type :=
| IndexError
| ValueError
| TypeError
| LoadError
| LibraryError (msg : string).

Inductive result (X : Type) : Type :=
| Ok (x : X)
| Raise (e : exn).

Arguments Ok {X} x.
Arguments Raise {X} e.

Definition bind {X Y : Type} (r : result X) (k : X -> result Y) : result Y :=
  match r with
  | Ok x => k x
  | Raise e => Raise e
  end.

Declare Scope py_scope.
Delimit Scope py_scope with py.
Notation "x <- c ;; k" := (bind c (fun x => k))
  (at level 61, c at next level, right associativity) : py_scope.
Notation "' pat <- c ;; k" := (bind c (fun x => match x with pat => k end))
  (at level 61, pat pattern, c at next level, right associativity) : py_scope.
Open Scope py_scope.

(** ** Python list indexing: [l[index]] with negative indices counted from
    the end *)

Definition list_getitem {X : Type} (l : list X) (index : Z) : result X :=
  let n := Z.of_nat (length l) in
  let i := if (index <? 0)%Z then (index + n)%Z else index in
  if ((i <? 0) || (n <=? i))%Z then Raise IndexError
  else match nth_error l (Z.to_nat i) with
       | Some x => Ok x
       | None => Raise IndexError
       end.

(** ** numpy arrays *)

Module Np.

Record ndarray (A : Type) : Type := mk_ndarray {
  shape : list nat;
  item : list nat -> A
}.

Section Arrays.
Context {A : Type}.

Definition ndim (a : ndarray A) : nat := length (shape a).

(** [idx] is a valid index of an array of shape [sh]. *)
Definition in_bounds (sh idx : list nat) : Prop := Forall2 lt idx sh.

(** [np.array_equal]: same shape and the same element at every index. *)
Definition array_equal (a b : ndarray A) : Prop :=
  shape a = shape b /\
  forall idx, in_bounds (shape a) idx -> item a idx = item b idx.

(** [a.shape[i]], an IndexError on a tuple that is too short. *)
Definition shape_at (a : ndarray A) (i : nat) : result Z :=
  match nth_error (shape a) i with
  | Some n => Ok (Z.of_nat n)
  | None => Raise IndexError
  end.

(** Position [n - 1 - i] along axis [k]. *)
Fixpoint reverse_axis (k : nat) (sh idx : list nat) : list nat :=
  match sh, idx with
  | n :: sh', i :: idx' =>
      match k with
      | O => (n - 1 - i)%nat :: idx'
      | S k' => i :: reverse_axis k' sh' idx'
      end
  | _, _ => idx
  end.

(** [np.flipud(m)]: [m[::-1, ...]], a ValueError below one dimension. *)
Definition flipud (m : ndarray A) : result (ndarray A) :=
  if (ndim m <? 1)%nat then Raise ValueError
  else Ok {| shape := shape m;
             item := fun idx => item m (reverse_axis 0 (shape m) idx) |}.

(** [np.fliplr(m)]: [m[:, ::-1]], a ValueError below two dimensions. *)
Definition fliplr (m : ndarray A) : result (ndarray A) :=
  if (ndim m <? 2)%nat then Raise ValueError
  else Ok {| shape := shape m;
             item := fun idx => item m (reverse_axis 1 (shape m) idx) |}.

Definition is_permutation (axes : list nat) (n : nat) : bool :=
  (length axes =? n)%nat &&
  forallb (fun j => existsb (Nat.eqb j) axes) (seq 0 n).

Fixpoint index_of (j : nat) (l : list nat) : nat :=
  match l with
  | [] => O
  | x :: l' => if (x =? j)%nat then O else S (index_of j l')
  end.

(** [np.transpose(a, axes)]: axis [i] of the result is axis [axes[i]] of
    [a]; a ValueError when [axes] is not a permutation of the axes. *)
Definition transpose (a : ndarray A) (axes : list nat) : result (ndarray A) :=
  if is_permutation axes (ndim a) then
    Ok {| shape := map (fun ax => nth ax (shape a) O) axes;
          item := fun idx =>
            item a (map (fun j => nth (index_of j axes) idx O)
                        (seq 0 (ndim a))) |}
  else Raise ValueError.

(** One bound of a Python slice of step 1 on an axis of length [n]
    ([slice.indices]): negative bounds count from the end, and bounds are
    clipped to the axis. *)
Definition slice_bound (x : Z) (n : nat) : nat :=
  if (x <? 0)%Z then Z.to_nat (Z.max (x + Z.of_nat n) 0)
  else Z.to_nat (Z.min x (Z.of_nat n)).

Definition slice_length (sl : Z * Z) (n : nat) : nat :=
  (slice_bound (snd sl) n - slice_bound (fst sl) n)%nat.

Fixpoint slice_shape (sl : list (Z * Z)) (sh : list nat) : option (list nat) :=
  match sl, sh with
  | [], _ => Some sh
  | s :: sl', n :: sh' =>
      option_map (cons (slice_length s n)) (slice_shape sl' sh')
  | _ :: _, [] => None
  end.

Fixpoint slice_index (sl : list (Z * Z)) (sh idx : list nat) : list nat :=
  match sl, sh, idx with
  | s :: sl', n :: sh', i :: idx' =>
      (slice_bound (fst s) n + i)%nat :: slice_index sl' sh' idx'
  | _, _, _ => idx
  end.

(** [a[lo0:hi0, lo1:hi1, ...]]: a view; an IndexError with more slices
    than axes. *)
Definition getitem_slices (a : ndarray A) (sl : list (Z * Z))
  : result (ndarray A) :=
  match slice_shape sl (shape a) with
  | Some sh' =>
      Ok {| shape := sh';
            item := fun idx => item a (slice_index sl (shape a) idx) |}
  | None => Raise IndexError
  end.

(** [a[i]] for a non-negative integer [i]: the sub-array at position [i]
    of the first axis. *)
Definition getitem_int (a : ndarray A) (i : nat) : ndarray A :=
  {| shape := tl (shape a); item := fun idx => item a (i :: idx) |}.

(** [np.copy(a)]: a fresh buffer with the same contents. *)
Definition copy (a : ndarray A) : ndarray A := a.

(** Elementwise application of a unary operation. *)
Definition map_elements {B : Type} (f : A -> B) (a : ndarray A) : ndarray B :=
  {| shape := shape a; item := fun idx => f (item a idx) |}.

(** Broadcasting of two shapes, aligned on the last axis. *)
Fixpoint broadcast_rev (s1 s2 : list nat) : option (list nat) :=
  match s1, s2 with
  | [], _ => Some s2
  | _, [] => Some s1
  | x :: s1', y :: s2' =>
      if (x =? y)%nat then option_map (cons x) (broadcast_rev s1' s2')
      else if (x =? 1)%nat then option_map (cons y) (broadcast_rev s1' s2')
      else if (y =? 1)%nat then option_map (cons x) (broadcast_rev s1' s2')
      else None
  end.

Definition broadcast_shapes (s1 s2 : list nat) : option (list nat) :=
  option_map (@rev nat) (broadcast_rev (rev s1) (rev s2)).

(** The index into an operand of shape [sb] that a result index [idx]
    reads: the trailing axes, with axes of length 1 pinned to 0. *)
Definition broadcast_index (sb idx : list nat) : list nat :=
  map (fun ni => if (fst ni =? 1)%nat then O else snd ni)
      (combine sb (skipn (length idx - length sb) idx)).

(** [np.op(a, b, out=a)]: [b] is broadcast against [a], and the broadcast
    shape has to be the shape of the output operand [a]. *)
Definition binary_out (op : A -> A -> A) (a b : ndarray A)
  : result (ndarray A) :=
  match broadcast_shapes (shape a) (shape b) with
  | Some s =>
      if list_eq_dec Nat.eq_dec s (shape a) then
        Ok {| shape := shape a;
              item := fun idx =>
                op (item a idx) (item b (broadcast_index (shape b) idx)) |}
      else Raise ValueError
  | None => Raise ValueError
  end.

(** Array literals, for concrete inputs. *)
Definition full (sh : list nat) (v : A) : ndarray A :=
  {| shape := sh; item := fun _ => v |}.

Definition of_rows (d : A) (rows : list (list A)) : ndarray A :=
  {| shape := [length rows; length (hd [] rows)];
     item := fun idx => nth (nth 1 idx O) (nth (nth 0 idx O) rows []) d |}.

(** All elements in row-major order, to inspect a concrete array. *)
Fixpoint tolist_from (sh : list nat) (f : list nat -> A) : list A :=
  match sh with
  | [] => [f []]
  | n :: sh' =>
      flat_map (fun i => tolist_from sh' (fun idx => f (i :: idx))) (seq 0 n)
  end.

Definition tolist (a : ndarray A) : list A := tolist_from (shape a) (item a).

End Arrays.
End Np.

(** ** np.random *)

(** The future of the generator: the uniform draws in [0,1) it will
    produce, in order. *)
Definition tape : Type := nat -> Q.

Definition tape_tail (t : tape) : tape := fun n => t (S n).

Definition unit_draw (r : Q) : Prop := (0 <= r)%Q /\ (r < 1)%Q.

Record world : Type := mk_world {
  np_random : tape;   (* numpy's global RandomState *)
  ia_random : tape    (* imgaug's own global RandomState *)
}.

(** [np.random.rand()] *)
Definition np_random_rand (w : world) : Q * world :=
  (np_random w O,
   {| np_random := tape_tail (np_random w); ia_random := ia_random w |}).

(** [np.random.randint(low, high)]: an integer of [low, high), and the
    ValueError "low >= high" on an empty range. *)
Definition np_random_randint (low high : Z) (w : world) : result (Z * world) :=
  if (high <=? low)%Z then Raise ValueError
  else let (u, w') := np_random_rand w in
       Ok ((low + Qfloor (u * inject_Z (high - low)))%Z, w').

(** [np.random.choice(l)] *)
Definition np_random_choice (l : list Z) (w : world) : result (Z * world) :=
  '(i, w') <- np_random_randint 0 (Z.of_nat (length l)) w ;;
  Ok (nth (Z.to_nat i) l 0%Z, w').


(** ** Collaborators outside the repository *)

Import Np.

Inductive cv2_interpolation : Type := INTER_NEAREST | INTER_LINEAR.

Inductive cv2_border : Type := BORDER_CONSTANT | BORDER_REFLECT.

(** The parameters of an [iaa.Affine] augmenter that the transforms set;
    each is a [Deterministic] value. *)
Record Affine : Type := mk_Affine {
  affine_scale : Q;
  affine_rotate : Z;
  affine_mode : string
}.

Definition iaa_Affine (scale : Q) (rotate : Z) (mode : string) : Affine :=
  {| affine_scale := scale; affine_rotate := rotate; affine_mode := mode |}.

Definition set_rotate (aug : Affine) (angle : Z) : Affine :=
  {| affine_scale := affine_scale aug; affine_rotate := angle;
     affine_mode := affine_mode aug |}.

Definition set_scale (aug : Affine) (scale : Q) : Affine :=
  {| affine_scale := scale; affine_rotate := affine_rotate aug;
     affine_mode := affine_mode aug |}.

Record Backend (A : Type) : Type := mk_Backend {
  (* numpy: indexing with a list of slices, [a[[s0, s1, ...]]].  Before
     numpy 1.23 the list is read as a tuple (with a FutureWarning since
     1.15); from 1.23 on it is an IndexError. *)
  numpy_list_index_as_tuple : bool;
  (* numpy: [low + (high - low) * u] as [np.random.uniform] evaluates it,
     in double precision *)
  float64_uniform : Q -> Q -> Q -> Q;
  (* cv2.resize(image, (width, height), interpolation=...) *)
  cv2_resize :
    ndarray A -> Z * Z -> cv2_interpolation -> result (ndarray A);
  (* cv2.copyMakeBorder(image, top, bottom, left, right, borderType) *)
  cv2_copyMakeBorder :
    ndarray A -> Z -> Z -> Z -> Z -> cv2_border -> result (ndarray A);
  (* iaa.Affine(...).augment_image(image), all parameters Deterministic *)
  iaa_Affine_augment_image : Affine -> ndarray A -> result (ndarray A);
  (* iaa.Add((from_val, to_val), per_channel).augment_image(image) *)
  iaa_Add_augment_image :
    Q * Q -> Q -> ndarray A -> tape -> result (ndarray A * tape);
  (* iaa.ContrastNormalization((from_val, to_val), per_channel)
       .augment_image(image) *)
  iaa_ContrastNormalization_augment_image :
    Q * Q -> Q -> ndarray A -> tape -> result (ndarray A * tape);
  (* pytorch_helpers.helpers.load_image(filename, grayscale=...) *)
  load_image : string -> bool -> result (ndarray A)
}.

(** An array with two non-empty spatial axes. *)
Definition has_pixels {A : Type} (a : ndarray A) : Prop :=
  exists h w rest, shape a = S h :: S w :: rest.

(** What [Resize] relies on from [cv2.resize]: for a positive target size
    and an input with pixels it returns an array whose spatial shape is
    (height, width). *)
Definition cv2_resize_contract {A : Type} (B : Backend A) : Prop :=
  forall (image : ndarray A) (width height : Z) (i : cv2_interpolation),
    has_pixels image -> (0 < width)%Z -> (0 < height)%Z ->
    exists out,
      cv2_resize B image (width, height) i = Ok out /\
      firstn 2 (shape out) = [Z.to_nat height; Z.to_nat width].

(** What [np.random.uniform] documents: for [low <= high] the value lies
    in [low, high], the upper end being possible through rounding. *)
Definition uniform_contract {A : Type} (B : Backend A) : Prop :=
  forall (low high u : Q),
    (low <= high)%Q -> unit_draw u ->
    (low <= float64_uniform B low high u)%Q /\
    (float64_uniform B low high u <= high)%Q.

(** [np.random.uniform(low, high)] *)
Definition np_random_uniform {A : Type} (B : Backend A) (low high : Q)
  (w : world) : Q * world :=
  let (u, w') := np_random_rand w in
  (float64_uniform B low high u, w').

(** ** transforms.py *)

Inductive ImageMaskTransformMode : Type := Image | Mask.

(** The keyword arguments of [BaseImageMaskTransformer.__init__]. *)
Record kwargs : Type := mk_kwargs {
  kw_p : Q;
  kw_apply_always : bool;
  kw_apply_image : bool;
  kw_apply_mask : bool
}.

Definition default_kwargs : kwargs :=
  {| kw_p := 1 # 2; kw_apply_always := false;
     kw_apply_image := true; kw_apply_mask := true |}.

(** The subclasses of [BaseImageMaskTransformer], each with the fields its
    [__init__] adds. *)
Inductive transformer_class : Type :=
| RandomVerticalFlip
| RandomHorizontalFlip
| RandomTranspose
| Resize (size : Z)
| CopyNumpy
| SamplePatch (patch_size _patch_coordinate_h _patch_coordinate_w : Z)
| Add (from_val to_val per_channel : Q)
| ContrastNormalization (from_val to_val per_channel : Q)
| Rotate (from_val to_val : Z) (mode : string) (_augmentor : Affine)
| Rotate90n (_angles : list Z) (_augmentor : Affine)
| Scale (from_val to_val : Q) (mode : string) (_augmentor : Affine)
| MakeBorder (border_size : list Z)
| Squarify.

Record transformer : Type := mk_transformer {
  p : Q;
  apply_always : bool;
  apply_image : bool;
  apply_mask : bool;
  cls : transformer_class
}.

Definition set_apply_always (self : transformer) (v : bool) : transformer :=
  {| p := p self; apply_always := v; apply_image := apply_image self;
     apply_mask := apply_mask self; cls := cls self |}.

Definition set_apply_mask (self : transformer) (v : bool) : transformer :=
  {| p := p self; apply_always := apply_always self;
     apply_image := apply_image self; apply_mask := v; cls := cls self |}.

Definition set_cls (self : transformer) (c : transformer_class) : transformer :=
  {| p := p self; apply_always := apply_always self;
     apply_image := apply_image self; apply_mask := apply_mask self;
     cls := c |}.

Definition BaseImageMaskTransformer_init (kw : kwargs) (c : transformer_class)
  : transformer :=
  {| p := kw_p kw; apply_always := kw_apply_always kw;
     apply_image := kw_apply_image kw; apply_mask := kw_apply_mask kw;
     cls := c |}.

Definition RandomVerticalFlip_init (kw : kwargs) : transformer :=
  BaseImageMaskTransformer_init kw RandomVerticalFlip.

Definition RandomHorizontalFlip_init (kw : kwargs) : transformer :=
  BaseImageMaskTransformer_init kw RandomHorizontalFlip.

Definition RandomTranspose_init (kw : kwargs) : transformer :=
  BaseImageMaskTransformer_init kw RandomTranspose.

Definition Resize_init (size : Z) (kw : kwargs) : transformer :=
  set_apply_always (BaseImageMaskTransformer_init kw (Resize size)) true.

Definition CopyNumpy_init (kw : kwargs) : transformer :=
  set_apply_always (BaseImageMaskTransformer_init kw CopyNumpy) true.

Definition SamplePatch_init (patch_size : Z) (kw : kwargs) : transformer :=
  set_apply_always
    (BaseImageMaskTransformer_init kw (SamplePatch patch_size 0 0)) true.

Definition Add_init (from_val to_val per_channel : Q) (kw : kwargs)
  : transformer :=
  set_apply_mask
    (BaseImageMaskTransformer_init kw (Add from_val to_val per_channel)) false.

Definition ContrastNormalization_init (from_val to_val per_channel : Q)
  (kw : kwargs) : transformer :=
  set_apply_mask
    (BaseImageMaskTransformer_init kw
       (ContrastNormalization from_val to_val per_channel)) false.

Definition Rotate_init (from_val to_val : Z) (mode : string) (kw : kwargs)
  : transformer :=
  BaseImageMaskTransformer_init kw
    (Rotate from_val to_val mode (iaa_Affine 1 0 mode)).

Definition Rotate90n_init (kw : kwargs) : transformer :=
  BaseImageMaskTransformer_init kw
    (Rotate90n [0; 90; 180; 270]%Z (iaa_Affine 1 0 "constant")).

Definition Scale_init (from_val to_val : Q) (mode : string) (kw : kwargs)
  : transformer :=
  BaseImageMaskTransformer_init kw
    (Scale from_val to_val mode (iaa_Affine 1 0 mode)).

(** The [border_size] argument of [MakeBorder]: a tuple, or anything
    else (an integer). *)
Inductive border_arg : Type :=
| BorderInt (s : Z)
| BorderTuple (t : list Z).

Definition MakeBorder_init (border_size : border_arg) (kw : kwargs)
  : transformer :=
  let border_size :=
    match border_size with
    | BorderTuple t => t
    | BorderInt s => [s; s; s; s]
    end in
  set_apply_mask
    (set_apply_always
       (BaseImageMaskTransformer_init kw (MakeBorder border_size)) true)
    false.

Definition Squarify_init (kw : kwargs) : transformer :=
  set_apply_always (BaseImageMaskTransformer_init kw Squarify) true.

(** [Squarify.transform], the body of the loop over the two sides. *)
Definition squarify_crop (target_size image_side_size : Z) : Z * Z :=
  if (image_side_size <=? target_size)%Z then (0, 0)%Z
  else
    let crop_total := (image_side_size - target_size)%Z in
    let crop_before := (crop_total / 2)%Z in
    let crop_after := (image_side_size - target_size - crop_before)%Z in
    (crop_before, crop_after).

(** [[slice(a, image.shape[i] - b) for i, (a, b) in enumerate(crops)]] *)
Definition squarify_slices (sh : list nat) (crops : list (Z * Z))
  : list (Z * Z) :=
  map (fun ic => (fst (snd ic), (Z.of_nat (nth (fst ic) sh O) - snd (snd ic))%Z))
      (combine (seq 0 (length crops)) crops).

Section Transforms.
Context {A : Type} (B : Backend A).

Definition RandomVerticalFlip_transform (image : ndarray A)
  : result (ndarray A) :=
  flipud image.

Definition RandomHorizontalFlip_transform (image : ndarray A)
  : result (ndarray A) :=
  fliplr image.

Definition RandomTranspose_transform (image : ndarray A)
  : result (ndarray A) :=
  let transpose_axis := [1; 0]%nat in
  let transpose_axis :=
    if (length (shape image) =? 3)%nat then transpose_axis ++ [2%nat]
    else transpose_axis in
  transpose image transpose_axis.

Definition Resize_transform (size : Z) (image : ndarray A)
  (mode : ImageMaskTransformMode) : result (ndarray A) :=
  let interpolation :=
    match mode with
    | Image => INTER_LINEAR
    | Mask => INTER_NEAREST
    end in
  cv2_resize B image (size, size) interpolation.

Definition CopyNumpy_transform (image : ndarray A) : result (ndarray A) :=
  Ok (copy image).

(** Returns the patch together with the two cached coordinates. *)
Definition SamplePatch_transform
  (patch_size _patch_coordinate_h _patch_coordinate_w : Z)
  (image : ndarray A) (mode : ImageMaskTransformMode) (w : world)
  : result (ndarray A * (Z * Z) * world) :=
  '(coords, w') <-
    match mode with
    | Image =>
        image_height <- shape_at image 0 ;;
        image_width <- shape_at image 1 ;;
        let max_height := (image_height - patch_size)%Z in
        let max_width := (image_width - patch_size)%Z in
        '(h, w1) <- np_random_randint 0 max_height w ;;
        '(x, w2) <- np_random_randint 0 max_width w1 ;;
        Ok ((h, x), w2)
    | Mask => Ok ((_patch_coordinate_h, _patch_coordinate_w), w)
    end ;;
  let c_h := (fst coords, (fst coords + patch_size)%Z) in
  let c_w := (snd coords, (snd coords + patch_size)%Z) in
  image' <- getitem_slices image [c_h; c_w] ;;
  Ok (image', coords, w').

Definition Add_transform (from_val to_val per_channel : Q)
  (image : ndarray A) (w : world) : result (ndarray A * world) :=
  '(image', t) <-
    iaa_Add_augment_image B (from_val, to_val) per_channel image
      (ia_random w) ;;
  Ok (image', {| np_random := np_random w; ia_random := t |}).

Definition ContrastNormalization_transform (from_val to_val per_channel : Q)
  (image : ndarray A) (w : world) : result (ndarray A * world) :=
  '(image', t) <-
    iaa_ContrastNormalization_augment_image B (from_val, to_val) per_channel
      image (ia_random w) ;;
  Ok (image', {| np_random := np_random w; ia_random := t |}).

(** Returns the rotated array together with the augmenter, whose [rotate]
    the image half has set. *)
Definition Rotate_transform (from_val to_val : Z) (_augmentor : Affine)
  (image : ndarray A) (mode : ImageMaskTransformMode) (w : world)
  : result (ndarray A * Affine * world) :=
  '(aug, w') <-
    match mode with
    | Image =>
        '(angle, w1) <- np_random_randint from_val to_val w ;;
        Ok (set_rotate _augmentor angle, w1)
    | Mask => Ok (_augmentor, w)
    end ;;
  image' <- iaa_Affine_augment_image B aug image ;;
  Ok (image', aug, w').

Definition Rotate90n_transform (_angles : list Z) (_augmentor : Affine)
  (image : ndarray A) (mode : ImageMaskTransformMode) (w : world)
  : result (ndarray A * Affine * world) :=
  '(aug, w') <-
    match mode with
    | Image =>
        '(angle, w1) <- np_random_choice _angles w ;;
        Ok (set_rotate _augmentor angle, w1)
    | Mask => Ok (_augmentor, w)
    end ;;
  image' <- iaa_Affine_augment_image B aug image ;;
  Ok (image', aug, w').

Definition Scale_transform (from_val to_val : Q) (_augmentor : Affine)
  (image : ndarray A) (mode : ImageMaskTransformMode) (w : world)
  : result (ndarray A * Affine * world) :=
  '(aug, w') <-
    match mode with
    | Image =>
        let (scale, w1) := np_random_uniform B from_val to_val w in
        Ok (set_scale _augmentor scale, w1)
    | Mask => Ok (_augmentor, w)
    end ;;
  image' <- iaa_Affine_augment_image B aug image ;;
  Ok (image', aug, w').

Definition MakeBorder_transform (border_size : list Z) (image : ndarray A)
  : result (ndarray A) :=
  top <- list_getitem border_size 0 ;;
  bottom <- list_getitem border_size 1 ;;
  left <- list_getitem border_size 2 ;;
  right <- list_getitem border_size 3 ;;
  cv2_copyMakeBorder B image top bottom left right BORDER_REFLECT.

Definition squarify_crops (image : ndarray A) : result (list (Z * Z)) :=
  height <- shape_at image 0 ;;
  width <- shape_at image 1 ;;
  let image_size := [height; width] in
  let target_size := Z.min height width in
  let crops := map (squarify_crop target_size) image_size in
  Ok (crops ++ repeat (0, 0)%Z (length (shape image) - 2)).

(** [slices] is a Python list, so [image[slices]] is numpy's indexing with
    a list of slices: one slice per axis before numpy 1.23, an IndexError
    from 1.23 on. *)
Definition Squarify_transform (image : ndarray A) : result (ndarray A) :=
  crops <- squarify_crops image ;;
  let slices := squarify_slices (shape image) crops in
  if numpy_list_index_as_tuple B then getitem_slices image slices
  else Raise IndexError.

(** [self.transform(image, mode)], dispatched on the class of [self].  The
    result carries the instance and the world after the call. *)
Definition transform (self : transformer) (image : ndarray A)
  (mode : ImageMaskTransformMode) (w : world)
  : result (ndarray A * transformer * world) :=
  match cls self with
  | RandomVerticalFlip =>
      image' <- RandomVerticalFlip_transform image ;; Ok (image', self, w)
  | RandomHorizontalFlip =>
      image' <- RandomHorizontalFlip_transform image ;; Ok (image', self, w)
  | RandomTranspose =>
      image' <- RandomTranspose_transform image ;; Ok (image', self, w)
  | Resize size =>
      image' <- Resize_transform size image mode ;; Ok (image', self, w)
  | CopyNumpy =>
      image' <- CopyNumpy_transform image ;; Ok (image', self, w)
  | SamplePatch patch_size c_h c_w =>
      '(image', coords, w') <-
        SamplePatch_transform patch_size c_h c_w image mode w ;;
      Ok (image',
          set_cls self (SamplePatch patch_size (fst coords) (snd coords)),
          w')
  | Add from_val to_val per_channel =>
      '(image', w') <- Add_transform from_val to_val per_channel image w ;;
      Ok (image', self, w')
  | ContrastNormalization from_val to_val per_channel =>
      '(image', w') <-
        ContrastNormalization_transform from_val to_val per_channel image w ;;
      Ok (image', self, w')
  | Rotate from_val to_val md aug =>
      '(image', aug', w') <-
        Rotate_transform from_val to_val aug image mode w ;;
      Ok (image', set_cls self (Rotate from_val to_val md aug'), w')
  | Rotate90n angles aug =>
      '(image', aug', w') <- Rotate90n_transform angles aug image mode w ;;
      Ok (image', set_cls self (Rotate90n angles aug'), w')
  | Scale from_val to_val md aug =>
      '(image', aug', w') <-
        Scale_transform from_val to_val aug image mode w ;;
      Ok (image', set_cls self (Scale from_val to_val md aug'), w')
  | MakeBorder border_size =>
      image' <- MakeBorder_transform border_size image ;; Ok (image', self, w)
  | Squarify =>
      image' <- Squarify_transform image ;; Ok (image', self, w)
  end.

(** The Python values that travel as a mask or come out of a
    post-transform: [None], the integer the dataset uses for "no mask", a
    dense array, or an object that is not an [np.ndarray] (a numpy scalar,
    a tensor of the framework) with its contents. *)
Inductive pyobj : Type :=
| PyNone
| PyInt (z : Z)
| PyArray (a : ndarray A)
| PyObject (contents : ndarray A).

(** [isinstance(mask, np.ndarray)] *)
Definition is_ndarray (mask : pyobj) : bool :=
  match mask with
  | PyArray _ => true
  | _ => false
  end.

(** What [__call__] returns: the image alone, or the pair. *)
Inductive call_result : Type :=
| RetImage (image : ndarray A)
| RetPair (image : ndarray A) (mask : pyobj).

(** [np.random.rand() >= self.p or self.apply_always] *)
Definition should_apply (self : transformer) (r : Q) : bool :=
  Qle_bool (p self) r || apply_always self.

(** The body of the [if] of [__call__]: the image half, then the mask
    half. *)
Definition apply_halves (self : transformer) (image : ndarray A)
  (mask : pyobj) (w : world)
  : result (ndarray A * pyobj * transformer * world) :=
  '(image, self, w) <-
    (if apply_image self then transform self image Image w
     else Ok (image, self, w)) ;;
  '(mask, self, w) <-
    (match mask with
     | PyArray m =>
         if apply_mask self then
           '(m', self', w') <- transform self m Mask w ;;
           Ok (PyArray m', self', w')
         else Ok (mask, self, w)
     | _ => Ok (mask, self, w)
     end) ;;
  Ok (image, mask, self, w).

Definition pack (image : ndarray A) (mask : pyobj) : call_result :=
  match mask with
  | PyNone => RetImage image
  | _ => RetPair image mask
  end.

(** [BaseImageMaskTransformer.__call__(image, mask)] *)
Definition call (self : transformer) (image : ndarray A) (mask : pyobj)
  (w : world) : result (call_result * transformer * world) :=
  let (r, w) := np_random_rand w in
  '(image, mask, self, w) <-
    (if should_apply self r then apply_halves self image mask w
     else Ok (image, mask, self, w)) ;;
  Ok (pack image mask, self, w).

(** [image, mask = value]: a pair unpacks into its halves; a bare array is
    iterated along its first axis, which has to have length two.  The two
    items of an array of two or more dimensions are arrays; those of a
    one-dimensional array are numpy scalars, which are not [np.ndarray]:
    in image position a scalar is the zero-dimensional array that numpy's
    functions make of it. *)
Definition unpack_pair (value : call_result) : result (ndarray A * pyobj) :=
  match value with
  | RetPair image mask => Ok (image, mask)
  | RetImage a =>
      match shape a with
      | [] => Raise TypeError
      | [2%nat] => Ok (getitem_int a 0, PyObject (getitem_int a 1))
      | 2%nat :: _ => Ok (getitem_int a 0, PyArray (getitem_int a 1))
      | _ => Raise ValueError
      end
  end.

(** [ImageMaskTransformsCompose.__call__]: the loop over
    [self.transforms], which are distinct instances. *)
Fixpoint ImageMaskTransformsCompose_call (transforms : list transformer)
  (image : ndarray A) (mask : pyobj) (w : world)
  : result (ndarray A * pyobj * list transformer * world) :=
  match transforms with
  | [] => Ok (image, mask, [], w)
  | transform_step :: rest =>
      '(value, transform_step', w) <- call transform_step image mask w ;;
      '(image, mask) <- unpack_pair value ;;
      '(image, mask, rest', w) <-
        ImageMaskTransformsCompose_call rest image mask w ;;
      Ok (image, mask, transform_step' :: rest', w)
  end.

End Transforms.

Arguments PyNone {A}.
Arguments PyInt {A} z.

(** ** Post-transforms: [Normalize] and [ToTensor]

    The element type [F] stands for numpy's scalars; float32 arithmetic is
    the collaborator's, so its operations are parameters. *)

Section PostTransforms.
Variable F : Type.
Variable of_Z : Z -> F.                (* the scalar of a Python integer *)
Variable astype_float32 : F -> F.      (* the cast to [np.float32] *)
Variables fsub fdiv : F -> F -> F.     (* float32 subtraction and division *)

Definition float32 (z : Z) : F := astype_float32 (of_Z z).

(** A [mean] or [std] argument: a number or a sequence of numbers. *)
Inductive array_like : Type :=
| Scalar (x : F)
| Sequence (xs : list F).

(** The argument [z] given as a number, or as one number per channel. *)
Definition constant_like (per_channel : bool) (z : Z) (C : nat)
  : array_like :=
  if per_channel then Sequence (repeat (of_Z z) C) else Scalar (of_Z z).

(** [np.reshape(np.array(v, dtype=np.float32), (1, 1, -1))] *)
Definition channel_vector (v : array_like) : ndarray F :=
  match v with
  | Scalar x =>
      {| shape := [1; 1; 1]%nat; item := fun _ => astype_float32 x |}
  | Sequence xs =>
      {| shape := [1; 1; length xs]%nat;
         item := fun idx =>
           nth (nth 2 idx O) (map astype_float32 xs) (float32 0) |}
  end.

(** [np.divide(data, d, dtype=np.float32)]: a new array. *)
Definition np_divide_float32 (data : ndarray F) (d : Z) : ndarray F :=
  map_elements (fun x => fdiv (astype_float32 x) (float32 d)) data.

(** The kind of [data.dtype]: integer (or boolean), or floating. *)
Inductive dtype_kind : Type := IntegerKind | FloatingKind.

(** [np.op(data, v, out=data)] with a float32 [v]: the floating result has
    to be cast to the dtype of [data] under the "same_kind" rule, which
    numpy refuses with a TypeError for an integer [data] when it resolves
    the types, before it broadcasts. *)
Definition ufunc_out (kind : dtype_kind) (op : F -> F -> F)
  (data v : ndarray F) : result (ndarray F) :=
  match kind with
  | IntegerKind => Raise TypeError
  | FloatingKind => binary_out op data v
  end.

Record Normalize : Type := mk_Normalize {
  divide : bool;
  mean : ndarray F;
  std : ndarray F
}.

Definition Normalize_init (mean std : array_like) (divide : bool) : Normalize :=
  {| divide := divide;
     mean := channel_vector mean;
     std := channel_vector std |}.

(** [Normalize.__call__(data)], for [data] of dtype kind [kind]. *)
Definition Normalize_call (self : Normalize) (kind : dtype_kind)
  (data : ndarray F) : result (ndarray F) :=
  let data := if divide self then np_divide_float32 data 255 else data in
  let kind := if divide self then FloatingKind else kind in
  data <- ufunc_out kind fsub data (mean self) ;;
  data <- ufunc_out kind fdiv data (std self) ;;
  Ok data.

Record ToTensor : Type := mk_ToTensor {
  tt_divide : bool;
  tt_transpose : bool;
  tt_contiguous : bool;
  tt_to_torch : bool
}.

(** [ToTensor()] with the defaults of the constructor. *)
Definition ToTensor_init (divide transpose contiguous to_torch : bool)
  : ToTensor :=
  {| tt_divide := divide; tt_transpose := transpose;
     tt_contiguous := contiguous; tt_to_torch := to_torch |}.

(** The value [ToTensor] returns: still a numpy array, or a tensor of the
    framework with the same contents. *)
Inductive tensor_value : Type :=
| NumpyArray (a : ndarray F)
| TorchTensor (a : ndarray F).

(** [np.ascontiguousarray(data)]: the same contents in a C-ordered
    buffer. *)
Definition ascontiguousarray (data : ndarray F) : ndarray F := data.

(** [ToTensor.__call__(data)] *)
Definition ToTensor_call (self : ToTensor) (data : ndarray F)
  : result tensor_value :=
  data <- (if tt_transpose self then transpose data [2; 0; 1]%nat
           else Ok data) ;;
  let data := if tt_contiguous self then ascontiguousarray data else data in
  let data := if tt_divide self then np_divide_float32 data 255 else data in
  Ok (if tt_to_torch self
      then TorchTensor (map_elements astype_float32 data)
      else NumpyArray data).

End PostTransforms.

(** ** datasets/segmentation.py *)

Section Dataset.
Context {A : Type} (B : Backend A).

(** The callables a dataset is given as its paired [transform]: one
    transformer or a composition. *)
Inductive pair_callable : Type :=
| Transformer (t : transformer)
| Compose (transforms : list transformer).

Record BaseImageSegmentationDataset : Type := mk_dataset {
  images : list string;
  masks : option (list string);
  nb_images : Z;
  pair_transform : option pair_callable;          (* self.transform *)
  (* the post-transforms are any callables: they are given an array and
     return whatever they return *)
  image_transform : option (ndarray A -> result (pyobj (A := A)));
  mask_transform : option (ndarray A -> result (pyobj (A := A)))
}.

Definition BaseImageSegmentationDataset_init
  (transform : option pair_callable)
  (image_transform mask_transform :
     option (ndarray A -> result (pyobj (A := A))))
  : BaseImageSegmentationDataset :=
  {| images := []; masks := None; nb_images := 0;
     pair_transform := transform;
     image_transform := image_transform;
     mask_transform := mask_transform |}.

Definition set_pair_transform (self : BaseImageSegmentationDataset)
  (t : option pair_callable) : BaseImageSegmentationDataset :=
  {| images := images self; masks := masks self; nb_images := nb_images self;
     pair_transform := t;
     image_transform := image_transform self;
     mask_transform := mask_transform self |}.

Definition set_mask_transform (self : BaseImageSegmentationDataset)
  (f : option (ndarray A -> result (pyobj (A := A))))
  : BaseImageSegmentationDataset :=
  {| images := images self; masks := masks self; nb_images := nb_images self;
     pair_transform := pair_transform self;
     image_transform := image_transform self;
     mask_transform := f |}.

Definition _load_image_and_mask (self : BaseImageSegmentationDataset)
  (index : Z) : result (ndarray A * pyobj (A := A)) :=
  image_filename <- list_getitem (images self) index ;;
  image <- load_image B image_filename false ;;
  mask <-
    match masks self with
    | Some ms =>
        mask_filename <- list_getitem ms index ;;
        m <- load_image B mask_filename true ;;
        Ok (PyArray m)
    | None => Ok (PyInt 0)
    end ;;
  Ok (image, mask).

(** [image, mask = self.transform(image, mask)] *)
Definition call_pair_transform (t : pair_callable) (image : ndarray A)
  (mask : pyobj) (w : world)
  : result (ndarray A * pyobj (A := A) * pair_callable * world) :=
  match t with
  | Transformer t =>
      '(value, t', w') <- call B t image mask w ;;
      '(image', mask') <- unpack_pair value ;;
      Ok (image', mask', Transformer t', w')
  | Compose ts =>
      '(image', mask', ts', w') <-
        ImageMaskTransformsCompose_call B ts image mask w ;;
      Ok (image', mask', Compose ts', w')
  end.

Definition _apply_transforms (self : BaseImageSegmentationDataset)
  (image : ndarray A) (mask : pyobj) (w : world)
  : result (pyobj (A := A) * pyobj (A := A)
            * BaseImageSegmentationDataset * world) :=
  '(image, mask, self, w) <-
    match pair_transform self with
    | Some t =>
        '(image', mask', t', w') <- call_pair_transform t image mask w ;;
        Ok (image', mask', set_pair_transform self (Some t'), w')
    | None => Ok (image, mask, self, w)
    end ;;
  image <-
    match image_transform self with
    | Some f => f image
    | None => Ok (PyArray image)
    end ;;
  mask <-
    match mask_transform self, mask with
    | Some f, PyArray m => f m
    | _, _ => Ok mask
    end ;;
  Ok (image, mask, self, w).

(** [BaseImageSegmentationDataset.__getitem__(index)] *)
Definition getitem (self : BaseImageSegmentationDataset) (index : Z)
  (w : world)
  : result (pyobj (A := A) * pyobj (A := A)
            * BaseImageSegmentationDataset * world) :=
  '(image, mask) <- _load_image_and_mask self index ;;
  '(image, mask, self, w) <- _apply_transforms self image mask w ;;
  Ok (image, mask, self, w).

(** [BaseImageSegmentationDataset.__len__()] *)
Definition len (self : BaseImageSegmentationDataset) : Z := nb_images self.

End Dataset.

(** ** Concrete collaborators and inputs

    An executable stand-in for the collaborators, over integer pixels, to
    run the embedding on concrete inputs. *)

Module Sample.

Definition resize (image : ndarray Z) (dsize : Z * Z)
  (interpolation : cv2_interpolation) : result (ndarray Z) :=
  match shape image with
  | H :: W :: rest =>
      if ((fst dsize <=? 0)%Z || (snd dsize <=? 0)%Z
          || (H =? 0)%nat || (W =? 0)%nat)%bool
      then Raise (LibraryError "cv2.error")
      else
        let h := Z.to_nat (snd dsize) in
        let w := Z.to_nat (fst dsize) in
        Ok {| shape := h :: w :: rest;
              item := fun idx =>
                match idx with
                | i :: j :: r => item image ((i * H / h) :: (j * W / w) :: r)%nat
                | _ => item image idx
                end |}
  | _ => Raise (LibraryError "cv2.error")
  end.

Definition copyMakeBorder (image : ndarray Z) (top bottom left right : Z)
  (border : cv2_border) : result (ndarray Z) :=
  match shape image with
  | H :: W :: rest =>
      Ok {| shape := (Z.to_nat top + H + Z.to_nat bottom)%nat
                     :: (Z.to_nat left + W + Z.to_nat right)%nat :: rest;
            item := fun idx =>
              match idx with
              | i :: j :: r =>
                  item image (Nat.min (i - Z.to_nat top) (H - 1)
                              :: Nat.min (j - Z.to_nat left) (W - 1) :: r)
              | _ => item image idx
              end |}
  | _ => Raise (LibraryError "cv2.error")
  end.

Definition load (filename : string) (grayscale : bool) : result (ndarray Z) :=
  if String.eqb filename "missing.png" then Raise LoadError
  else if grayscale then Ok (full [4; 4]%nat 1%Z)
  else Ok (full [4; 4; 3]%nat 7%Z).

(** numpy from 1.23 on. *)
Definition backend : Backend Z :=
  {| numpy_list_index_as_tuple := false;
     float64_uniform := fun low high u => (low + (high - low) * u)%Q;
     cv2_resize := resize;
     cv2_copyMakeBorder := copyMakeBorder;
     iaa_Affine_augment_image := fun _ image => Ok image;
     iaa_Add_augment_image := fun _ _ image t => Ok (image, tape_tail t);
     iaa_ContrastNormalization_augment_image :=
       fun _ _ image t => Ok (image, tape_tail t);
     load_image := load |}.

(** The same collaborators with numpy before 1.23. *)
Definition backend_numpy_1_22 : Backend Z :=
  {| numpy_list_index_as_tuple := true;
     float64_uniform := float64_uniform backend;
     cv2_resize := cv2_resize backend;
     cv2_copyMakeBorder := cv2_copyMakeBorder backend;
     iaa_Affine_augment_image := iaa_Affine_augment_image backend;
     iaa_Add_augment_image := iaa_Add_augment_image backend;
     iaa_ContrastNormalization_augment_image :=
       iaa_ContrastNormalization_augment_image backend;
     load_image := load_image backend |}.

(** A generator whose every draw is [1/4]. *)
Definition quarter : world :=
  {| np_random := fun _ => 1 # 4; ia_random := fun _ => 1 # 4 |}.

(** A generator whose every draw is [3/4]. *)
Definition three_quarters : world :=
  {| np_random := fun _ => 3 # 4; ia_random := fun _ => 3 # 4 |}.

Definition image_2x3 : ndarray Z :=
  of_rows 0%Z [[1; 2; 3]; [4; 5; 6]]%Z.

Definition image_4x4 : ndarray Z := full [4; 4]%nat 9%Z.

(** A dataset of two images without masks, whose mask post-transform
    raises on every call. *)
Definition two_images : BaseImageSegmentationDataset (A := Z) :=
  {| images := ["a.png"; "b.png"]%string; masks := None; nb_images := 2;
     pair_transform :=
       Some (Compose [RandomVerticalFlip_init default_kwargs;
                      Resize_init 2 default_kwargs]);
     image_transform := None;
     mask_transform := Some (fun _ => Raise TypeError) |}.

End Sample.

(** ** The shared geometric parameter

    The specification describes the geometric transforms through one
    sampled parameter, drawn on the image half, cached on the instance and
    read back on the mask half.  The definitions of this section follow
    those words; the properties below compare them with [transform] and
    [call]. *)

Inductive geometry : Type :=
| NoParameter
| PatchOffset (h w : Z)
| Angle (a : Z)
| ScaleFactor (s : Q).

(** SamplePatch, Rotate, Rotate90n and Scale. *)
Definition shares_geometry (c : transformer_class) : bool :=
  match c with
  | SamplePatch _ _ _ | Rotate _ _ _ _ | Rotate90n _ _ | Scale _ _ _ _ => true
  | _ => false
  end.

(** The parameter stored on the instance. *)
Definition cached_parameter (self : transformer) : geometry :=
  match cls self with
  | SamplePatch _ h w => PatchOffset h w
  | Rotate _ _ _ aug => Angle (affine_rotate aug)
  | Rotate90n _ aug => Angle (affine_rotate aug)
  | Scale _ _ _ aug => ScaleFactor (affine_scale aug)
  | _ => NoParameter
  end.

(** The instance with [g] stored: the offset, the angle or the factor is
    [g], and every other field is as before. *)
Definition cache_parameter (self : transformer) (g : geometry) : transformer :=
  match cls self, g with
  | SamplePatch patch_size _ _, PatchOffset h w =>
      set_cls self (SamplePatch patch_size h w)
  | Rotate from_val to_val md aug, Angle a =>
      set_cls self
        (Rotate from_val to_val md
           (mk_Affine (affine_scale aug) a (affine_mode aug)))
  | Rotate90n angles aug, Angle a =>
      set_cls self
        (Rotate90n angles (mk_Affine (affine_scale aug) a (affine_mode aug)))
  | Scale from_val to_val md aug, ScaleFactor s =>
      set_cls self
        (Scale from_val to_val md
           (mk_Affine s (affine_rotate aug) (affine_mode aug)))
  | _, _ => self
  end.

Section SharedGeometry.
Context {A : Type} (B : Backend A).

(** Drawing the parameter for [image] from the generator. *)
Definition sample_parameter (self : transformer) (image : ndarray A)
  (w : world) : result (geometry * world) :=
  match cls self with
  | SamplePatch patch_size _ _ =>
      image_height <- shape_at image 0 ;;
      image_width <- shape_at image 1 ;;
      '(h, w1) <- np_random_randint 0 (image_height - patch_size) w ;;
      '(x, w2) <- np_random_randint 0 (image_width - patch_size) w1 ;;
      Ok (PatchOffset h x, w2)
  | Rotate from_val to_val _ _ =>
      '(a, w1) <- np_random_randint from_val to_val w ;;
      Ok (Angle a, w1)
  | Rotate90n angles _ =>
      '(a, w1) <- np_random_choice angles w ;;
      Ok (Angle a, w1)
  | Scale from_val to_val _ _ =>
      let (s, w1) := np_random_uniform B from_val to_val w in
      Ok (ScaleFactor s, w1)
  | _ => Ok (NoParameter, w)
  end.

(** The geometric operation of [self] with parameter [g], on either
    half. *)
Definition apply_parameter (self : transformer) (g : geometry)
  (x : ndarray A) : result (ndarray A) :=
  match cls self, g with
  | SamplePatch patch_size _ _, PatchOffset h w =>
      getitem_slices x [(h, h + patch_size); (w, w + patch_size)]%Z
  | Rotate _ _ _ aug, Angle a =>
      iaa_Affine_augment_image B
        (mk_Affine (affine_scale aug) a (affine_mode aug)) x
  | Rotate90n _ aug, Angle a =>
      iaa_Affine_augment_image B
        (mk_Affine (affine_scale aug) a (affine_mode aug)) x
  | Scale _ _ _ aug, ScaleFactor s =>
      iaa_Affine_augment_image B
        (mk_Affine s (affine_rotate aug) (affine_mode aug)) x
  | _, _ => Raise TypeError
  end.

(** The paired call as the specification describes it: one parameter,
    applied to the image and then to the mask. *)
Definition shared_geometry_call (self : transformer) (image mask : ndarray A)
  (w : world) : result (call_result (A := A) * transformer * world) :=
  '(g, w') <- sample_parameter self image w ;;
  image' <- apply_parameter self g image ;;
  mask' <- apply_parameter self g mask ;;
  Ok (RetPair image' (PyArray mask'), cache_parameter self g, w').

End SharedGeometry.

Module SampleData.

(** A dataset of two images with their masks and a composed transform. *)
Definition with_masks : BaseImageSegmentationDataset (A := Z) :=
  {| images := ["a.png"; "b.png"]%string;
     masks := Some ["a_mask.png"; "b_mask.png"]%string;
     nb_images := 2;
     pair_transform :=
       Some (Compose [RandomHorizontalFlip_init default_kwargs;
                      SamplePatch_init 2 default_kwargs]);
     image_transform := None;
     mask_transform := None |}.

(** A dataset whose only image cannot be loaded. *)
Definition unreadable : BaseImageSegmentationDataset (A := Z) :=
  {| images := ["missing.png"]%string; masks := None; nb_images := 1;
     pair_transform := None;
     image_transform := None;
     mask_transform := None |}.

End SampleData.

(** * Properties *)

(** ** General facts about the embedding *)

Lemma bind_ok {X Y : Type} (x : X) (k : X -> result Y) : bind (Ok x) k = k x.
Proof. reflexivity. Qed.

Lemma bind_raise {X Y : Type} (e : exn) (k : X -> result Y) :
  bind (Raise e) k = Raise e.
Proof. reflexivity. Qed.

Lemma bind_ok_inv {X Y : Type} (c : result X) (k : X -> result Y) (y : Y) :
  bind c k = Ok y -> exists x, c = Ok x /\ k x = Ok y.
Proof.
  destruct c as [x | e]; simpl; intros H.
  - exists x; split; [reflexivity | exact H].
  - discriminate H.
Qed.

Lemma reverse_axis_involutive (k : nat) (sh idx : list nat) :
  in_bounds sh idx -> reverse_axis k sh (reverse_axis k sh idx) = idx.
Proof.
  unfold in_bounds. intros H. revert k.
  induction H as [| i n idx' sh' Hlt _ IH]; intros k.
  - destruct k; reflexivity.
  - destruct k as [| k']; simpl.
    + f_equal. lia.
    + f_equal. apply IH.
Qed.

Lemma array_equal_refl {A : Type} (a : ndarray A) : array_equal a a.
Proof. split; [reflexivity | intros; reflexivity]. Qed.

(** ** The probability gate of [__call__] *)

Lemma should_apply_gate (self : transformer) (r : Q) :
  apply_always self = false ->
  (should_apply self r = true <-> (p self <= r)%Q).
Proof.
  intros Hnever. unfold should_apply. rewrite Hnever, orb_false_r.
  apply Qle_bool_iff.
Qed.

(** C1: with [apply_always] false and a draw [r] of [0,1), the body of the
    transform runs iff [r >= p]: when [p <= r] the call is [transform] on
    the image (if [apply_image]) and then [transform] on a dense mask (if
    [apply_mask]); otherwise it returns image, mask and instance
    unchanged; with [p = 0] it always runs and with [p = 1] it never
    does. *)
Theorem apply_gate_semantics {A : Type} (B : Backend A) (self : transformer)
  (image : ndarray A) (mask : pyobj) (w : world) :
  apply_always self = false ->
  unit_draw (np_random w O) ->
  let r := np_random w O in
  let w0 := snd (np_random_rand w) in
  (should_apply self r = true <-> (p self <= r)%Q) /\
  ((p self <= r)%Q ->
     call B self image mask w =
     ('(image1, self1, w1) <-
        (if apply_image self then transform B self image Image w0
         else Ok (image, self, w0)) ;;
      '(mask2, self2, w2) <-
        (match mask with
         | PyArray m =>
             if apply_mask self1 then
               ('(m', self', w') <- transform B self1 m Mask w1 ;;
                Ok (PyArray m', self', w'))
             else Ok (mask, self1, w1)
         | _ => Ok (mask, self1, w1)
         end) ;;
      Ok (pack image1 mask2, self2, w2))) /\
  (~ (p self <= r)%Q ->
     call B self image mask w = Ok (pack image mask, self, w0)) /\
  ((p self == 0)%Q -> should_apply self r = true) /\
  ((p self == 1)%Q -> should_apply self r = false).
Proof.
  intros Hnever [Hlo Hhi] r w0.
  pose proof (should_apply_gate self r Hnever) as Hgate.
  split; [exact Hgate |].
  split; [| split; [| split]].
  - intros Hle. apply Hgate in Hle. unfold call. cbn [np_random_rand].
    fold r. rewrite Hle. subst w0. cbn [np_random_rand snd].
    unfold apply_halves.
    destruct (if apply_image self then _ else _)
      as [[[image1 self1] w1] |]; cbn [bind]; [| reflexivity].
    destruct mask as [| z | m | o]; cbn [bind]; try reflexivity.
    destruct (apply_mask self1); cbn [bind]; [| reflexivity].
    destruct (transform B self1 m Mask w1) as [[[m' self'] w'] |];
      reflexivity.
  - intros Hnle. unfold call. cbn. fold r.
    destruct (should_apply self r) eqn:E; [| reflexivity].
    exfalso. apply Hnle. apply (should_apply_gate self r Hnever). exact E.
  - intros Hp. apply Hgate. rewrite Hp. exact Hlo.
  - intros Hp. destruct (should_apply self r) eqn:E; [| reflexivity].
    exfalso. apply (should_apply_gate self r Hnever) in E. rewrite Hp in E.
    apply (Qlt_irrefl 1). apply Qle_lt_trans with (y := r); assumption.
Qed.

(** A closed instance: a vertical flip with [p = 1/2] passes the pair
    through on the draw [1/4], and flips image and mask on the draw
    [3/4]. *)
Lemma apply_gate_semantics_witness :
  let self := RandomVerticalFlip_init default_kwargs in
  call Sample.backend self Sample.image_2x3 (PyArray Sample.image_4x4)
    Sample.quarter
  = Ok (RetPair Sample.image_2x3 (PyArray Sample.image_4x4), self,
        snd (np_random_rand Sample.quarter)) /\
  exists image' mask',
    call Sample.backend self Sample.image_2x3 (PyArray Sample.image_2x3)
      Sample.three_quarters
    = Ok (RetPair image' (PyArray mask'), self,
          snd (np_random_rand Sample.three_quarters)) /\
    tolist image' = [4; 5; 6; 1; 2; 3]%Z /\
    tolist mask' = [4; 5; 6; 1; 2; 3]%Z.
Proof.
  intros self.
  assert (Hnever : apply_always self = false) by reflexivity.
  assert (Hdraw : forall w, In w [Sample.quarter; Sample.three_quarters] ->
                    unit_draw (np_random w O)).
  { intros w [<- | [<- | []]]; split; vm_compute;
      try discriminate; reflexivity. }
  split.
  - destruct (apply_gate_semantics Sample.backend self Sample.image_2x3
                (PyArray Sample.image_4x4) Sample.quarter Hnever
                (Hdraw _ (or_introl eq_refl)))
      as (_ & _ & Hskip & _).
    apply Hskip. intros Hle. vm_compute in Hle. apply Hle. reflexivity.
  - destruct (apply_gate_semantics Sample.backend self Sample.image_2x3
                (PyArray Sample.image_2x3) Sample.three_quarters Hnever
                (Hdraw _ (or_intror (or_introl eq_refl))))
      as (_ & Happly & _).
    rewrite Happly by (vm_compute; discriminate).
    eexists _, _. split; [reflexivity |]. split; reflexivity.
Defined.

(** ** Flips *)

Lemma flipud_twice {A : Type} (a : ndarray A) :
  (1 <= ndim a)%nat ->
  exists once twice,
    flipud a = Ok once /\ flipud once = Ok twice /\ array_equal twice a.
Proof.
  intros Hrank. unfold flipud.
  destruct (Nat.ltb_spec (ndim a) 1) as [Hlt | _]; [lia |].
  eexists. eexists. split; [reflexivity |].
  unfold ndim; cbn [shape]. fold (ndim a).
  destruct (Nat.ltb_spec (ndim a) 1) as [Hlt | _]; [lia |].
  split; [reflexivity |].
  split; cbn [shape item]; [reflexivity |].
  intros idx Hin. rewrite reverse_axis_involutive by exact Hin. reflexivity.
Qed.

Lemma fliplr_twice {A : Type} (a : ndarray A) :
  (2 <= ndim a)%nat ->
  exists once twice,
    fliplr a = Ok once /\ fliplr once = Ok twice /\ array_equal twice a.
Proof.
  intros Hrank. unfold fliplr.
  destruct (Nat.ltb_spec (ndim a) 2) as [Hlt | _]; [lia |].
  eexists. eexists. split; [reflexivity |].
  unfold ndim; cbn [shape]. fold (ndim a).
  destruct (Nat.ltb_spec (ndim a) 2) as [Hlt | _]; [lia |].
  split; [reflexivity |].
  split; cbn [shape item]; [reflexivity |].
  intros idx Hin. rewrite reverse_axis_involutive by exact Hin. reflexivity.
Qed.

(** C9: on an image or mask (two dimensions or more), the body of the
    vertical flip applied twice returns an array equal to the original, and
    so does the body of the horizontal flip; neither touches the instance
    or the random state. *)
Theorem flips_are_involutions {A : Type} (B : Backend A) (kw : kwargs)
  (image : ndarray A) (mode mode' : ImageMaskTransformMode) (w : world) :
  (2 <= ndim image)%nat ->
  (exists once twice,
     transform B (RandomVerticalFlip_init kw) image mode w
       = Ok (once, RandomVerticalFlip_init kw, w) /\
     transform B (RandomVerticalFlip_init kw) once mode' w
       = Ok (twice, RandomVerticalFlip_init kw, w) /\
     array_equal twice image) /\
  (exists once twice,
     transform B (RandomHorizontalFlip_init kw) image mode w
       = Ok (once, RandomHorizontalFlip_init kw, w) /\
     transform B (RandomHorizontalFlip_init kw) once mode' w
       = Ok (twice, RandomHorizontalFlip_init kw, w) /\
     array_equal twice image).
Proof.
  intros Hrank. split.
  - destruct (flipud_twice image) as (once & twice & H1 & H2 & Heq); [lia |].
    exists once, twice. unfold transform; simpl.
    unfold RandomVerticalFlip_transform. rewrite H1, H2. simpl.
    repeat split; try reflexivity; apply Heq.
  - destruct (fliplr_twice image Hrank) as (once & twice & H1 & H2 & Heq).
    exists once, twice. unfold transform; simpl.
    unfold RandomHorizontalFlip_transform. rewrite H1, H2. simpl.
    repeat split; try reflexivity; apply Heq.
Qed.

Lemma flips_are_involutions_witness :
  (exists once twice,
     transform Sample.backend (RandomVerticalFlip_init default_kwargs)
       Sample.image_2x3 Image Sample.quarter
       = Ok (once, RandomVerticalFlip_init default_kwargs, Sample.quarter) /\
     transform Sample.backend (RandomVerticalFlip_init default_kwargs)
       once Image Sample.quarter
       = Ok (twice, RandomVerticalFlip_init default_kwargs, Sample.quarter) /\
     array_equal twice Sample.image_2x3) /\
  (exists once twice,
     transform Sample.backend (RandomHorizontalFlip_init default_kwargs)
       Sample.image_2x3 Image Sample.quarter
       = Ok (once, RandomHorizontalFlip_init default_kwargs, Sample.quarter) /\
     transform Sample.backend (RandomHorizontalFlip_init default_kwargs)
       once Image Sample.quarter
       = Ok (twice, RandomHorizontalFlip_init default_kwargs, Sample.quarter) /\
     array_equal twice Sample.image_2x3).
Proof.
  apply (flips_are_involutions Sample.backend default_kwargs
           Sample.image_2x3 Image Image Sample.quarter).
  vm_compute. lia.
Defined.

(** ** Squarify *)

(** C7: on an array of shape (100, 60, 3) the crops are (20, 20) on the
    first axis and (0, 0) on the others, and the array is indexed with the
    list of the three slices.  With numpy from 1.23 on that indexing raises
    an IndexError, so the transform fails; with numpy before 1.23 the
    result has shape (60, 60, 3), its element (i, j, c) being element
    (20 + i, j, c) of the input: 20 rows removed before and 20 after. *)
Theorem squarify_100_60_3 {A : Type} (B : Backend A) (kw : kwargs)
  (image : ndarray A) (mode : ImageMaskTransformMode) (w : world) :
  shape image = [100; 60; 3]%nat ->
  squarify_crops image = Ok [(20, 20); (0, 0); (0, 0)]%Z /\
  (numpy_list_index_as_tuple B = false ->
   transform B (Squarify_init kw) image mode w = Raise IndexError) /\
  (numpy_list_index_as_tuple B = true ->
   exists out,
     transform B (Squarify_init kw) image mode w
       = Ok (out, Squarify_init kw, w) /\
     shape out = [60; 60; 3]%nat /\
     forall i j c, item out [i; j; c] = item image [(20 + i)%nat; j; c]).
Proof.
  intros Hshape.
  assert (Hcrops : squarify_crops image = Ok [(20, 20); (0, 0); (0, 0)]%Z).
  { unfold squarify_crops, shape_at. rewrite Hshape. reflexivity. }
  split; [exact Hcrops |].
  unfold transform; cbn [cls Squarify_init set_apply_always
                           BaseImageMaskTransformer_init].
  unfold Squarify_transform. rewrite Hcrops. cbn [bind].
  split; intros Hnumpy; rewrite Hnumpy; [reflexivity |].
  unfold getitem_slices. rewrite Hshape.
  eexists. split; [reflexivity |].
  split; [reflexivity |].
  intros i j c. reflexivity.
Qed.

Lemma squarify_100_60_3_witness :
  transform Sample.backend (Squarify_init default_kwargs)
    (full [100; 60; 3]%nat 5%Z) Image Sample.quarter
  = Raise IndexError /\
  exists out,
    transform Sample.backend_numpy_1_22 (Squarify_init default_kwargs)
      (full [100; 60; 3]%nat 5%Z) Image Sample.quarter
      = Ok (out, Squarify_init default_kwargs, Sample.quarter) /\
    shape out = [60; 60; 3]%nat.
Proof.
  split.
  - destruct (squarify_100_60_3 Sample.backend default_kwargs
                (full [100; 60; 3]%nat 5%Z) Image Sample.quarter eq_refl)
      as (_ & Hraise & _).
    apply Hraise. reflexivity.
  - destruct (squarify_100_60_3 Sample.backend_numpy_1_22 default_kwargs
                (full [100; 60; 3]%nat 5%Z) Image Sample.quarter eq_refl)
      as (_ & _ & Hok).
    destruct (Hok eq_refl) as (out & Hrun & Hshape & _).
    exists out. split; [exact Hrun | exact Hshape].
Defined.

(** ** MakeBorder *)

(** C10: [MakeBorder(s)] is the same instance as [MakeBorder((s, s, s, s))]:
    four equal sizes, [apply_always] true and [apply_mask] false whatever
    the keyword arguments; its body pads with [BORDER_REFLECT] by those
    sizes, and a call pads the image (when [apply_image]) and returns the
    mask untouched. *)
Theorem make_border_scalar {A : Type} (B : Backend A) (s : Z) (kw : kwargs) :
  let self := MakeBorder_init (BorderInt s) kw in
  self = MakeBorder_init (BorderTuple [s; s; s; s]) kw /\
  cls self = MakeBorder [s; s; s; s] /\
  apply_always self = true /\
  apply_mask self = false /\
  (forall image mode w,
     transform B self image mode w =
     (image' <- cv2_copyMakeBorder B image s s s s BORDER_REFLECT ;;
      Ok (image', self, w))) /\
  (forall image mask w,
     call B self image mask w =
     if apply_image self then
       (image' <- cv2_copyMakeBorder B image s s s s BORDER_REFLECT ;;
        Ok (pack image' mask, self, snd (np_random_rand w)))
     else Ok (pack image mask, self, snd (np_random_rand w))).
Proof.
  intros self.
  assert (Hbody : forall image mode w,
             transform B self image mode w =
             (image' <- cv2_copyMakeBorder B image s s s s BORDER_REFLECT ;;
              Ok (image', self, w))).
  { intros image mode w. reflexivity. }
  repeat split; try reflexivity; try exact Hbody.
  intros image mask w. unfold call. cbn [np_random_rand snd].
  assert (Hgate : forall r, should_apply self r = true).
  { intros r. unfold should_apply. cbn. apply orb_true_r. }
  rewrite Hgate. unfold apply_halves.
  destruct (apply_image self) eqn:Himage.
  - rewrite Hbody.
    destruct (cv2_copyMakeBorder B image s s s s BORDER_REFLECT)
      as [image' | e]; [| reflexivity].
    cbn [bind]. destruct mask; reflexivity.
  - cbn [bind]. destruct mask; reflexivity.
Qed.

(** ** Resize *)

Lemma sample_resize_contract : cv2_resize_contract Sample.backend.
Proof.
  intros image width height i (h & w & rest & Hshape) Hw Hh.
  cbn [cv2_resize Sample.backend]. unfold Sample.resize.
  rewrite Hshape. cbn [fst snd].
  destruct (Z.leb_spec width 0) as [Hle | _]; [lia |].
  destruct (Z.leb_spec height 0) as [Hle | _]; [lia |].
  cbn [orb Nat.eqb]. eexists. split; reflexivity.
Qed.

(** C6: [Resize(S)] has [apply_always] set whatever [p] and
    [apply_always] it was given, so for every draw the call resizes the
    image with [INTER_LINEAR] and a dense mask with [INTER_NEAREST], both
    to (S, S); the results have spatial shape S x S. *)
Theorem resize_always_applies {A : Type} (B : Backend A) (size : Z)
  (prob : Q) (always : bool) (image mask : ndarray A) (w : world) :
  cv2_resize_contract B ->
  (0 < size)%Z ->
  has_pixels image ->
  has_pixels mask ->
  let self :=
    Resize_init size
      {| kw_p := prob; kw_apply_always := always;
         kw_apply_image := true; kw_apply_mask := true |} in
  apply_always self = true /\
  should_apply self (np_random w O) = true /\
  exists image' mask',
    cv2_resize B image (size, size) INTER_LINEAR = Ok image' /\
    cv2_resize B mask (size, size) INTER_NEAREST = Ok mask' /\
    call B self image (PyArray mask) w
      = Ok (RetPair image' (PyArray mask'), self, snd (np_random_rand w)) /\
    firstn 2 (shape image') = [Z.to_nat size; Z.to_nat size] /\
    firstn 2 (shape mask') = [Z.to_nat size; Z.to_nat size].
Proof.
  intros Hcv Hsize Himage Hmask self.
  assert (Hgate : forall r, should_apply self r = true).
  { intros r. unfold should_apply. cbn. apply orb_true_r. }
  split; [reflexivity |]. split; [apply Hgate |].
  destruct (Hcv image size size INTER_LINEAR Himage Hsize Hsize)
    as (image' & Hi & Hsi).
  destruct (Hcv mask size size INTER_NEAREST Hmask Hsize Hsize)
    as (mask' & Hm & Hsm).
  exists image', mask'.
  split; [exact Hi |]. split; [exact Hm |].
  split; [| split; assumption].
  unfold call. cbn [np_random_rand snd]. rewrite Hgate.
  unfold apply_halves. cbn [apply_image self Resize_init set_apply_always
                              BaseImageMaskTransformer_init kw_apply_image].
  unfold transform at 1.
  cbn [cls self Resize_init set_apply_always BaseImageMaskTransformer_init].
  unfold Resize_transform. rewrite Hi. cbn [bind].
  cbn [apply_mask self Resize_init set_apply_always
         BaseImageMaskTransformer_init kw_apply_mask].
  unfold transform.
  cbn [cls self Resize_init set_apply_always BaseImageMaskTransformer_init].
  unfold Resize_transform. rewrite Hm. reflexivity.
Qed.

Lemma resize_always_applies_witness :
  exists image' mask',
    call Sample.backend (Resize_init 2 default_kwargs)
      Sample.image_2x3 (PyArray Sample.image_4x4) Sample.quarter
      = Ok (RetPair image' (PyArray mask'), Resize_init 2 default_kwargs,
            snd (np_random_rand Sample.quarter)) /\
    firstn 2 (shape image') = [2; 2]%nat /\
    firstn 2 (shape mask') = [2; 2]%nat.
Proof.
  assert (H0 : has_pixels Sample.image_2x3).
  { exists 1%nat, 2%nat, []. reflexivity. }
  assert (H1 : has_pixels Sample.image_4x4).
  { exists 3%nat, 3%nat, []. reflexivity. }
  destruct (resize_always_applies (1 # 2) false Sample.quarter
              sample_resize_contract (eq_refl : (0 < 2)%Z) H0 H1)
    as (_ & _ & image' & mask' & _ & _ & Hcall & Hi & Hm).
  exists image', mask'. repeat split; assumption.
Defined.

(** ** Normalize and ToTensor *)

Lemma broadcast_channel (H W C K : nat) :
  K = C \/ K = 1%nat ->
  broadcast_shapes [H; W; C] [1; 1; K]%nat = Some [H; W; C].
Proof.
  intros HK. unfold broadcast_shapes. cbn [rev app broadcast_rev].
  assert (Hlast : forall n rest,
             (if (n =? 1)%nat then option_map (cons n) rest
              else if (n =? 1)%nat then option_map (cons 1%nat) rest
              else if (1 =? 1)%nat then option_map (cons n) rest
              else None) = option_map (cons n) rest).
  { intros n rest. destruct (n =? 1)%nat; reflexivity. }
  rewrite !Hlast.
  destruct HK as [-> | ->].
  - rewrite Nat.eqb_refl. reflexivity.
  - destruct (Nat.eqb_spec C 1) as [-> | Hne]; [reflexivity |].
    cbn [Nat.eqb]. reflexivity.
Qed.

Lemma nth_map_repeat {X Y : Type} (f : X -> Y) (x : X) (d : Y) (k n : nat) :
  (n < k)%nat -> nth n (map f (repeat x k)) d = f x.
Proof.
  revert n. induction k as [| k IH]; intros [| n] Hlt; simpl;
    try lia; try reflexivity.
  apply IH. lia.
Qed.

Section NumericProperties.
Variable F : Type.
Variable of_Z : Z -> F.
Variable astype_float32 : F -> F.
Variables fsub fdiv : F -> F -> F.

(** The two float32 identities the property rests on: subtracting zero and
    dividing by one return the operand. *)
Hypothesis fsub_zero : forall x, fsub x (float32 of_Z astype_float32 0) = x.
Hypothesis fdiv_one : forall x, fdiv x (float32 of_Z astype_float32 1) = x.

Lemma channel_vector_constant (per_channel : bool) (z : Z) (C : nat) :
  exists K,
    (K = C \/ K = 1%nat) /\
    shape (channel_vector of_Z astype_float32 (constant_like of_Z per_channel z C))
      = [1; 1; K]%nat /\
    forall idx,
      (nth 2 idx O < K)%nat ->
      item (channel_vector of_Z astype_float32 (constant_like of_Z per_channel z C))
        idx = float32 of_Z astype_float32 z.
Proof.
  destruct per_channel; cbn [constant_like channel_vector shape item].
  - exists C. split; [left; reflexivity |]. split.
    + rewrite repeat_length. reflexivity.
    + intros idx Hlt. unfold float32. apply nth_map_repeat. exact Hlt.
  - exists 1%nat. split; [right; reflexivity |]. split; reflexivity.
Qed.

Lemma in_bounds_3 (H W C : nat) (idx : list nat) :
  in_bounds [H; W; C] idx ->
  exists i j c,
    idx = [i; j; c] /\ (i < H)%nat /\ (j < W)%nat /\ (c < C)%nat.
Proof.
  unfold in_bounds. intros Hin.
  inversion Hin as [| i ? ? ? Hi Hin1]; subst.
  inversion Hin1 as [| j ? ? ? Hj Hin2]; subst.
  inversion Hin2 as [| c ? ? ? Hc Hin3]; subst.
  inversion Hin3; subst.
  exists i, j, c. repeat split; assumption.
Qed.

(** An operation with [out=data] against a channel vector whose entries
    all are [v] applies [op _ v] to every element. *)
Lemma binary_out_channel (op : F -> F -> F) (data b : ndarray F)
  (H W C K : nat) (v : F) :
  shape data = [H; W; C] ->
  shape b = [1; 1; K]%nat ->
  K = C \/ K = 1%nat ->
  (forall idx, (nth 2 idx O < K)%nat -> item b idx = v) ->
  exists out,
    binary_out op data b = Ok out /\
    shape out = [H; W; C] /\
    forall idx, in_bounds [H; W; C] idx ->
      item out idx = op (item data idx) v.
Proof.
  intros Hdata Hb HK Hv. unfold binary_out.
  rewrite Hdata, Hb, (broadcast_channel H W HK).
  destruct (list_eq_dec Nat.eq_dec [H; W; C] [H; W; C]) as [_ | Hne];
    [| exfalso; apply Hne; reflexivity].
  eexists. split; [reflexivity |]. split; [reflexivity |].
  intros idx Hin. cbn [item].
  destruct (in_bounds_3 Hin) as (i & j & c & -> & _ & _ & Hc).
  f_equal. apply Hv.
  cbn. destruct (Nat.eqb_spec K 1) as [-> | Hne]; [lia |].
  destruct HK as [-> | ->]; [exact Hc | contradiction].
Qed.

(** C8, amended: on every array of three dimensions (H, W, C), of any
    dtype, [Normalize] with [divide] true, mean 0 and std 1 (as numbers or
    per channel) returns the array of the same shape whose every element is
    the float32 quotient of the input element by 255; [ToTensor] with
    [transpose] true turns an (H, W, C) array into the (C, H, W) array
    whose element (c, h, w) is element (h, w, c) of the input. *)
Theorem normalize_and_to_tensor (data : ndarray F) (H W C : nat)
  (per_channel contiguous : bool) (kind : dtype_kind) :
  shape data = [H; W; C] ->
  (exists out,
     Normalize_call of_Z astype_float32 fsub fdiv
       (Normalize_init of_Z astype_float32
          (constant_like of_Z per_channel 0 C)
          (constant_like of_Z per_channel 1 C)
          true)
       kind data = Ok out /\
     shape out = [H; W; C] /\
     forall i j c, (i < H)%nat -> (j < W)%nat -> (c < C)%nat ->
       item out [i; j; c]
       = fdiv (astype_float32 (item data [i; j; c]))
              (astype_float32 (of_Z 255))) /\
  (exists out,
     ToTensor_call of_Z astype_float32 fdiv
       (ToTensor_init false true contiguous false) data
       = Ok (NumpyArray out) /\
     shape out = [C; H; W] /\
     forall c h w, item out [c; h; w] = item data [h; w; c]).
Proof.
  intros Hshape. split.
  - unfold Normalize_call, Normalize_init. cbn [divide mean std ufunc_out].
    destruct (channel_vector_constant per_channel 0 C)
      as (K0 & HK0 & Hs0 & Hv0).
    destruct (channel_vector_constant per_channel 1 C)
      as (K1 & HK1 & Hs1 & Hv1).
    set (divided := np_divide_float32 of_Z astype_float32 fdiv data 255).
    assert (Hdiv : shape divided = [H; W; C]) by exact Hshape.
    destruct (binary_out_channel fsub divided _ Hdiv Hs0 HK0 Hv0)
      as (d1 & Hrun1 & Hshape1 & Hitem1).
    rewrite Hrun1. cbn [bind].
    destruct (binary_out_channel fdiv d1 _ Hshape1 Hs1 HK1 Hv1)
      as (d2 & Hrun2 & Hshape2 & Hitem2).
    rewrite Hrun2. cbn [bind].
    exists d2. split; [reflexivity |].
    split; [exact Hshape2 |].
    intros i j c Hi Hj Hc.
    assert (Hin : in_bounds [H; W; C] [i; j; c]).
    { unfold in_bounds. repeat constructor; assumption. }
    rewrite (Hitem2 _ Hin), (Hitem1 _ Hin), fsub_zero, fdiv_one.
    reflexivity.
  - unfold ToTensor_call, ToTensor_init.
    cbn [tt_transpose tt_contiguous tt_divide tt_to_torch].
    unfold transpose, ndim. rewrite Hshape. cbn [length is_permutation].
    cbn. destruct contiguous; eexists; (split; [reflexivity |]);
      split; reflexivity.
Qed.

End NumericProperties.

(** Exact rational arithmetic satisfies the two identities. *)
Lemma Qminus_zero (x : Q) : (x - inject_Z 0)%Q = x.
Proof.
  destruct x as [n d]. unfold Qminus, Qplus, Qopp, inject_Z. cbn.
  rewrite Z.mul_1_r, Z.add_0_r, Pos.mul_1_r. reflexivity.
Qed.

Lemma Qdiv_one (x : Q) : (x / inject_Z 1)%Q = x.
Proof.
  destruct x as [n d]. unfold Qdiv, Qmult, Qinv, inject_Z. cbn.
  rewrite Z.mul_1_r, Pos.mul_1_r. reflexivity.
Qed.

Lemma normalize_and_to_tensor_witness :
  let data := full [2; 2; 3]%nat (510 # 1) in
  (exists out,
     Normalize_call inject_Z (fun x => x) Qminus Qdiv
       (Normalize_init inject_Z (fun x => x)
          (Sequence (repeat (inject_Z 0) 3))
          (Sequence (repeat (inject_Z 1) 3)) true)
       IntegerKind data = Ok out /\
     shape out = [2; 2; 3]%nat /\
     item out [1; 1; 2]%nat = ((510 # 1) / (255 # 1))%Q) /\
  (exists out,
     ToTensor_call inject_Z (fun x => x) Qdiv
       (ToTensor_init false true false false) data
       = Ok (NumpyArray out) /\
     shape out = [3; 2; 2]%nat /\
     forall c h w, item out [c; h; w] = item data [h; w; c]).
Proof.
  intros data.
  destruct (normalize_and_to_tensor inject_Z (fun x => x) Qminus Qdiv
              Qminus_zero Qdiv_one data true false IntegerKind eq_refl)
    as ((out & Hrun & Hshape & Hitem) & Htensor).
  split; [| exact Htensor].
  exists out. split; [exact Hrun |]. split; [exact Hshape |].
  apply (Hitem 1%nat 1%nat 2%nat); lia.
Defined.

(** C8 as stated fails on an array of two dimensions: [Normalize] with
    [divide] true, mean 0 and std 1 raises a ValueError on a 4x4 array
    instead of returning it divided by 255. *)
Lemma normalize_two_dimensions_counterexample :
  let call_2d :=
    Normalize_call inject_Z (fun x => x) Qminus Qdiv
      (Normalize_init inject_Z (fun x => x) (Scalar (inject_Z 0))
         (Scalar (inject_Z 1)) true)
      IntegerKind (full [4; 4]%nat (510 # 1)) in
  call_2d = Raise ValueError /\ ~ (exists out, call_2d = Ok out).
Proof.
  intros call_2d.
  assert (Hraise : call_2d = Raise ValueError) by reflexivity.
  split; [exact Hraise |].
  intros (out & Hok). rewrite Hraise in Hok. discriminate Hok.
Qed.

(** ** Shared geometry of SamplePatch, Rotate, Rotate90n and Scale *)

Section SharedGeometryProperties.
Context {A : Type} (B : Backend A).

Lemma affine_eta (aug : Affine) :
  mk_Affine (affine_scale aug) (affine_rotate aug) (affine_mode aug) = aug.
Proof. destruct aug; reflexivity. Qed.

(** The mask half draws nothing and stores nothing: it is the operation
    with the cached parameter. *)
Lemma transform_mask_half (self : transformer) (x : ndarray A) (w : world) :
  shares_geometry (cls self) = true ->
  transform B self x Mask w =
  (y <- apply_parameter B self (cached_parameter self) x ;; Ok (y, self, w)).
Proof.
  destruct self as [pr aa ai am c].
  destruct c; cbn [cls shares_geometry]; intros Hs; try discriminate Hs;
    unfold transform, apply_parameter, cached_parameter; cbn [cls].
  - unfold SamplePatch_transform. cbn [bind fst snd].
    destruct (getitem_slices x _); reflexivity.
  - unfold Rotate_transform. cbn [bind]. rewrite affine_eta.
    destruct (iaa_Affine_augment_image B _augmentor x); reflexivity.
  - unfold Rotate90n_transform. cbn [bind]. rewrite affine_eta.
    destruct (iaa_Affine_augment_image B _augmentor x); reflexivity.
  - unfold Scale_transform. cbn [bind]. rewrite affine_eta.
    destruct (iaa_Affine_augment_image B _augmentor x); reflexivity.
Qed.

(** The image half draws the parameter, applies it and stores it. *)
Lemma transform_image_half (self : transformer) (x : ndarray A) (w : world) :
  shares_geometry (cls self) = true ->
  transform B self x Image w =
  ('(g, w') <- sample_parameter B self x w ;;
   y <- apply_parameter B self g x ;;
   Ok (y, cache_parameter self g, w')).
Proof.
  destruct self as [pr aa ai am c].
  destruct c; cbn [cls shares_geometry]; intros Hs; try discriminate Hs;
    unfold transform, apply_parameter, sample_parameter, cache_parameter;
    cbn [cls].
  - unfold SamplePatch_transform.
    destruct (shape_at x 0) as [H |]; [| reflexivity].
    destruct (shape_at x 1) as [W |]; [| reflexivity].
    cbn [bind].
    destruct (np_random_randint 0 (H - patch_size) w) as [[h w1] |];
      [| reflexivity].
    cbn [bind].
    destruct (np_random_randint 0 (W - patch_size) w1) as [[c w2] |];
      [| reflexivity].
    cbn [bind fst snd].
    destruct (getitem_slices x _); reflexivity.
  - unfold Rotate_transform.
    destruct (np_random_randint from_val to_val w) as [[a w1] |];
      [| reflexivity].
    cbn [bind]. unfold set_rotate.
    destruct (iaa_Affine_augment_image B _ x); reflexivity.
  - unfold Rotate90n_transform.
    destruct (np_random_choice _angles w) as [[a w1] |]; [| reflexivity].
    cbn [bind]. unfold set_rotate.
    destruct (iaa_Affine_augment_image B _ x); reflexivity.
  - unfold Scale_transform.
    destruct (np_random_uniform B from_val to_val w) as [s w1].
    cbn [bind]. unfold set_scale.
    destruct (iaa_Affine_augment_image B _ x); reflexivity.
Qed.

(** A drawn parameter, once stored, is the cached one, and storing it
    changes neither the class nor the operation. *)
Lemma sampled_parameter_cached (self : transformer) (x : ndarray A)
  (w w' : world) (g : geometry) :
  shares_geometry (cls self) = true ->
  sample_parameter B self x w = Ok (g, w') ->
  cached_parameter (cache_parameter self g) = g /\
  shares_geometry (cls (cache_parameter self g)) = true /\
  apply_mask (cache_parameter self g) = apply_mask self /\
  forall y, apply_parameter B (cache_parameter self g) g y
            = apply_parameter B self g y.
Proof.
  destruct self as [pr aa ai am c].
  destruct c; cbn [cls shares_geometry]; intros Hs; try discriminate Hs;
    unfold sample_parameter; cbn [cls]; intros Hg.
  - destruct (shape_at x 0) as [H |]; [| discriminate Hg].
    destruct (shape_at x 1) as [W |]; [| discriminate Hg].
    cbn [bind] in Hg.
    destruct (np_random_randint 0 (H - patch_size) w) as [[h w1] |];
      [| discriminate Hg].
    cbn [bind] in Hg.
    destruct (np_random_randint 0 (W - patch_size) w1) as [[c w2] |];
      [| discriminate Hg].
    cbn [bind] in Hg. injection Hg as <- <-.
    repeat split.
  - destruct (np_random_randint from_val to_val w) as [[a w1] |];
      [| discriminate Hg].
    cbn [bind] in Hg. injection Hg as <- <-.
    repeat split.
  - destruct (np_random_choice _angles w) as [[a w1] |]; [| discriminate Hg].
    cbn [bind] in Hg. injection Hg as <- <-.
    repeat split.
  - destruct (np_random_uniform B from_val to_val w) as [s w1].
    injection Hg as <- <-.
    repeat split.
Qed.

(** C2: for SamplePatch, Rotate, Rotate90n and Scale the parameter is
    drawn only by the image half, which stores it on the instance; the mask
    half draws nothing and applies the stored parameter; so a call that
    applies both halves to an image and a dense mask transforms both with
    the one parameter drawn in that call, and the instance it returns
    stores exactly that parameter. *)
Theorem shared_geometry_parameter (self : transformer)
  (image mask : ndarray A) (w : world) :
  shares_geometry (cls self) = true ->
  should_apply self (np_random w O) = true ->
  apply_image self = true ->
  apply_mask self = true ->
  (forall x w1,
     transform B self x Image w1 =
     ('(g, w2) <- sample_parameter B self x w1 ;;
      y <- apply_parameter B self g x ;;
      Ok (y, cache_parameter self g, w2))) /\
  (forall x w1,
     transform B self x Mask w1 =
     (y <- apply_parameter B self (cached_parameter self) x ;;
      Ok (y, self, w1))) /\
  call B self image (PyArray mask) w =
  shared_geometry_call B self image mask (snd (np_random_rand w)) /\
  (forall value self' w',
     call B self image (PyArray mask) w = Ok (value, self', w') ->
     exists g image' mask',
       sample_parameter B self image (snd (np_random_rand w)) = Ok (g, w') /\
       apply_parameter B self g image = Ok image' /\
       apply_parameter B self g mask = Ok mask' /\
       value = RetPair image' (PyArray mask') /\
       cached_parameter self' = g /\
       forall m w1,
         transform B self' m Mask w1 =
         (y <- apply_parameter B self g m ;; Ok (y, self', w1))).
Proof.
  intros Hs Hgate Himage Hmask.
  assert (Hcall :
    call B self image (PyArray mask) w =
    shared_geometry_call B self image mask (snd (np_random_rand w))).
  { unfold call, shared_geometry_call. cbn [np_random_rand snd].
    rewrite Hgate. unfold apply_halves. rewrite Himage.
    rewrite (transform_image_half self image _ Hs).
    destruct (sample_parameter B self image _) as [[g w'] |] eqn:Hg;
      [| reflexivity].
    cbn [bind].
    destruct (sampled_parameter_cached self image _ Hs Hg)
      as (Hcached & Hs' & Hmask' & Happly).
    destruct (apply_parameter B self g image) as [image' |]; [| reflexivity].
    cbn [bind]. rewrite Hmask', Hmask.
    rewrite (transform_mask_half (cache_parameter self g) mask w' Hs').
    rewrite Hcached, Happly.
    destruct (apply_parameter B self g mask) as [mask' |]; reflexivity. }
  split; [intros x w1; apply transform_image_half; exact Hs |].
  split; [intros x w1; apply transform_mask_half; exact Hs |].
  split; [exact Hcall |].
  intros value self' w'. rewrite Hcall. unfold shared_geometry_call.
  destruct (sample_parameter B self image _) as [[g w1] |] eqn:Hg;
    cbn [bind]; [| intros Hrun; discriminate Hrun].
  destruct (apply_parameter B self g image) as [image' |] eqn:Hi;
    cbn [bind]; [| intros Hrun; discriminate Hrun].
  destruct (apply_parameter B self g mask) as [mask' |] eqn:Hm;
    cbn [bind]; intros Hrun; [| discriminate Hrun].
  injection Hrun as <- <- <-.
  destruct (sampled_parameter_cached self image _ Hs Hg)
    as (Hcached & Hs' & _ & Happly).
  exists g, image', mask'. repeat split; try assumption.
  intros m w2. rewrite (transform_mask_half _ m w2 Hs').
  rewrite Hcached, Happly. reflexivity.
Qed.

End SharedGeometryProperties.

(** A closed instance: a rotation of [-20, 20) with the draw [1/4] draws
    the angle -10, and the instance the call returns stores -10. *)
Lemma shared_geometry_parameter_witness :
  let self :=
    Rotate_init (-20) 20 "reflect"
      {| kw_p := 0; kw_apply_always := false;
         kw_apply_image := true; kw_apply_mask := true |} in
  exists value self' w',
    call Sample.backend self Sample.image_4x4 (PyArray Sample.image_4x4)
      Sample.quarter = Ok (value, self', w') /\
    cached_parameter self' = Angle (-10) /\
    cls self'
    = Rotate (-20) 20 "reflect" (mk_Affine 1 (-10) "reflect").
Proof.
  intros self.
  destruct (shared_geometry_parameter Sample.backend self Sample.image_4x4
              Sample.image_4x4 Sample.quarter eq_refl eq_refl eq_refl eq_refl)
    as (_ & _ & Hcall & Hstored).
  eexists _, _, _. split; [rewrite Hcall; reflexivity |].
  split; reflexivity.
Defined.

(** ** SamplePatch *)

Lemma randint_range (low high : Z) (w : world) :
  (low < high)%Z ->
  unit_draw (np_random w O) ->
  exists v,
    np_random_randint low high w = Ok (v, snd (np_random_rand w)) /\
    (low <= v < high)%Z.
Proof.
  intros Hlt [Hlo Hhi]. unfold np_random_randint.
  destruct (Z.leb_spec high low) as [Hle | _]; [lia |].
  cbn [np_random_rand snd].
  set (u := np_random w O) in *. set (n := (high - low)%Z).
  assert (Hn : (0 < inject_Z n)%Q).
  { change (inject_Z 0 < inject_Z n)%Q. rewrite <- Zlt_Qlt. unfold n. lia. }
  eexists. split; [reflexivity |].
  assert (H0 : (0 <= Qfloor (u * inject_Z n))%Z).
  { change 0%Z with (Qfloor 0). apply Qfloor_resp_le.
    apply Qmult_le_0_compat; [exact Hlo | apply Qlt_le_weak; exact Hn]. }
  assert (H1 : (Qfloor (u * inject_Z n) < n)%Z).
  { rewrite Zlt_Qlt.
    apply Qle_lt_trans with (y := (u * inject_Z n)%Q); [apply Qfloor_le |].
    setoid_replace (inject_Z n) with (1 * inject_Z n)%Q at 2 by ring.
    apply Qmult_lt_compat_r; assumption. }
  subst n u. cbn [fst]. lia.
Qed.

Lemma randint_empty (low high : Z) (w : world) :
  (high <= low)%Z -> np_random_randint low high w = Raise ValueError.
Proof.
  intros Hle. unfold np_random_randint.
  destruct (Z.leb_spec high low) as [_ | Hlt]; [reflexivity | lia].
Qed.

(** A window of [size] rows or columns that lies inside the axis is not
    clipped. *)
Lemma slice_inside (n : nat) (lo size : Z) :
  (0 <= lo)%Z -> (0 <= size)%Z -> (lo + size <= Z.of_nat n)%Z ->
  slice_bound lo n = Z.to_nat lo /\
  slice_length (lo, (lo + size)%Z) n = Z.to_nat size.
Proof.
  intros Hlo Hsize Hfit. unfold slice_length, slice_bound. cbn [fst snd].
  destruct (Z.ltb_spec lo 0) as [Hneg | _]; [lia |].
  destruct (Z.ltb_spec (lo + size) 0) as [Hneg | _]; [lia |].
  split; lia.
Qed.

(** The image half of [SamplePatch.transform] raises the ValueError of
    [np.random.randint] exactly on an empty sampling range, that is when
    [patch_size] is at least one of the two sides. *)
Lemma sample_patch_value_error {A : Type} (B : Backend A)
  (self : transformer) (patch_size c_h c_w : Z) (image : ndarray A)
  (H W : nat) (rest : list nat) (w : world) :
  cls self = SamplePatch patch_size c_h c_w ->
  shape image = H :: W :: rest ->
  unit_draw (np_random w O) ->
  (transform B self image Image w = Raise ValueError <->
   (Z.of_nat H <= patch_size \/ Z.of_nat W <= patch_size)%Z).
Proof.
  intros Hcls Hshape Hdraw. unfold transform. rewrite Hcls.
  unfold SamplePatch_transform, shape_at. rewrite Hshape. cbn [nth_error bind].
  destruct (Z.le_gt_cases (Z.of_nat H) patch_size) as [HH | HH].
  - rewrite randint_empty by lia. cbn [bind]. split; [left; exact HH | reflexivity].
  - destruct (randint_range (low := 0) (high := Z.of_nat H - patch_size) w)
      as (h & Hrun & Hh); [lia | exact Hdraw |].
    rewrite Hrun. cbn [bind].
    destruct (Z.le_gt_cases (Z.of_nat W) patch_size) as [HW | HW].
    + rewrite randint_empty by lia. cbn [bind].
      split; [right; exact HW | reflexivity].
    + unfold np_random_randint.
      destruct (Z.leb_spec (Z.of_nat W - patch_size) 0) as [Hle | _]; [lia |].
      cbn [np_random_rand bind fst snd].
      unfold getitem_slices. rewrite Hshape. cbn [slice_shape option_map bind].
      split; [discriminate | lia].
Qed.

(** C4, amended: the image half of SamplePatch raises a ValueError
    whenever [patch_size] exceeds a side of the image; whenever
    [patch_size] is smaller than both sides it succeeds, with an offset of
    [0, H - patch) x [0, W - patch) that it stores, and the patch is
    exactly patch x patch, taken at that offset without clipping; the mask
    half draws no offset and reads the stored one. *)
Theorem sample_patch_range {A : Type} (B : Backend A)
  (self : transformer) (patch_size c_h c_w : Z) (image : ndarray A)
  (H W : nat) (rest : list nat) (w : world) :
  cls self = SamplePatch patch_size c_h c_w ->
  shape image = H :: W :: rest ->
  unit_draw (np_random w O) ->
  unit_draw (np_random w 1%nat) ->
  ((Z.of_nat H < patch_size \/ Z.of_nat W < patch_size)%Z ->
   transform B self image Image w = Raise ValueError) /\
  ((patch_size < Z.of_nat H /\ patch_size < Z.of_nat W)%Z ->
   exists h x out w',
     transform B self image Image w
       = Ok (out, set_cls self (SamplePatch patch_size h x), w') /\
     (0 <= h < Z.of_nat H - patch_size)%Z /\
     (0 <= x < Z.of_nat W - patch_size)%Z /\
     ((0 <= patch_size)%Z ->
      shape out = Z.to_nat patch_size :: Z.to_nat patch_size :: rest /\
      forall i j r,
        item out (i :: j :: r)
        = item image ((Z.to_nat h + i)%nat :: (Z.to_nat x + j)%nat :: r))) /\
  (forall (m : ndarray A) (w1 : world),
     transform B self m Mask w1 =
     (out <- getitem_slices m
               [(c_h, c_h + patch_size); (c_w, c_w + patch_size)]%Z ;;
      Ok (out, self, w1))).
Proof.
  intros Hcls Hshape Hdraw0 Hdraw1.
  split; [| split].
  - intros Hbig.
    apply (sample_patch_value_error B self image w Hcls Hshape Hdraw0). lia.
  - intros [HH HW]. unfold transform. rewrite Hcls.
    unfold SamplePatch_transform, shape_at. rewrite Hshape.
    cbn [nth_error bind].
    destruct (randint_range (low := 0) (high := Z.of_nat H - patch_size) w)
      as (h & Hrun & Hh); [lia | exact Hdraw0 |].
    rewrite Hrun. cbn [bind].
    destruct (randint_range (low := 0) (high := Z.of_nat W - patch_size)
                (snd (np_random_rand w)))
      as (x & Hrun' & Hx); [lia | exact Hdraw1 |].
    rewrite Hrun'. cbn [bind fst snd].
    unfold getitem_slices. rewrite Hshape. cbn [slice_shape option_map bind].
    eexists h, x, _, _. split; [reflexivity |].
    split; [exact Hh |]. split; [exact Hx |].
    intros Hpos. cbn [shape item slice_index fst snd].
    destruct (slice_inside H (lo := h) (size := patch_size))
      as [Hb1 Hl1]; try lia.
    destruct (slice_inside W (lo := x) (size := patch_size))
      as [Hb2 Hl2]; try lia.
    rewrite Hl1, Hl2. split; [reflexivity |].
    intros i j r. rewrite Hb1, Hb2. reflexivity.
  - intros m w1. unfold transform. rewrite Hcls.
    unfold SamplePatch_transform. cbn [bind fst snd].
    destruct (getitem_slices m _); cbn [bind]; [| reflexivity].
    destruct self as [pr aa ai am c]. cbn [cls] in Hcls. subst c.
    reflexivity.
Qed.

Lemma sample_patch_range_witness :
  exists h x out w',
    transform Sample.backend (SamplePatch_init 2 default_kwargs)
      Sample.image_4x4 Image Sample.quarter
    = Ok (out, set_cls (SamplePatch_init 2 default_kwargs)
                 (SamplePatch 2 h x), w') /\
    (0 <= h < 2)%Z /\ (0 <= x < 2)%Z.
Proof.
  assert (Hdraw : forall n, unit_draw (np_random Sample.quarter n)).
  { intros n. split; vm_compute; [discriminate | reflexivity]. }
  destruct (sample_patch_range Sample.backend
              (SamplePatch_init 2 default_kwargs) Sample.image_4x4
              Sample.quarter eq_refl eq_refl (Hdraw 0%nat) (Hdraw 1%nat))
    as (_ & Hok & _).
  destruct Hok as (h & x & out & w' & Hrun & Hh & Hx & _).
  { split; reflexivity. }
  exists h, x, out, w'. repeat split; try exact Hrun; lia.
Defined.

(** C4 as stated fails when [patch_size] equals a side: a 4x4 image and
    [patch_size = 4] raise the ValueError although no side is exceeded. *)
Lemma sample_patch_equal_side_counterexample :
  ~ (transform Sample.backend (SamplePatch_init 4 default_kwargs)
       Sample.image_4x4 Image Sample.quarter = Raise ValueError
     <-> (Z.of_nat 4 < 4 \/ Z.of_nat 4 < 4)%Z).
Proof.
  intros [Hfails _].
  assert (Hraise :
    transform Sample.backend (SamplePatch_init 4 default_kwargs)
      Sample.image_4x4 Image Sample.quarter = Raise ValueError)
    by reflexivity.
  apply Hfails in Hraise. cbn in Hraise. lia.
Qed.

(** ** The dataset *)

Lemma list_getitem_out_of_range {X : Type} (l : list X) (index : Z) :
  (Z.of_nat (length l) <= index \/ index < - Z.of_nat (length l))%Z ->
  list_getitem l index = Raise IndexError.
Proof.
  intros Hout. unfold list_getitem.
  destruct (Z.ltb_spec index 0) as [Hneg | Hpos].
  - destruct (Z.ltb_spec (index + Z.of_nat (length l)) 0) as [_ | Hge];
      [reflexivity | lia].
  - destruct (Z.ltb_spec index 0) as [Hneg | _]; [lia |].
    destruct (Z.leb_spec (Z.of_nat (length l)) index) as [_ | Hlt];
      [reflexivity | lia].
Qed.

(** A negative index of [-len, 0) reads from the end of the list. *)
Lemma list_getitem_negative {X : Type} (l : list X) (index : Z) :
  (- Z.of_nat (length l) <= index < 0)%Z ->
  list_getitem l index = list_getitem l (index + Z.of_nat (length l)) /\
  exists x, list_getitem l index = Ok x.
Proof.
  intros Hneg. set (n := Z.of_nat (length l)) in *.
  assert (E1 : (index <? 0)%Z = true) by (apply Z.ltb_lt; lia).
  assert (E2 : (index + n <? 0)%Z = false) by (apply Z.ltb_ge; lia).
  assert (E3 : (n <=? index + n)%Z = false) by (apply Z.leb_gt; lia).
  assert (Hsame : list_getitem l index = list_getitem l (index + n)).
  { unfold list_getitem. fold n. cbv zeta. rewrite E1, !E2. reflexivity. }
  split; [exact Hsame |].
  unfold list_getitem. fold n. cbv zeta. rewrite E1, E2, E3. cbn [orb].
  destruct (nth_error l (Z.to_nat (index + n))) as [x |] eqn:E.
  - exists x. reflexivity.
  - apply nth_error_None in E. lia.
Qed.

(** C5, amended: with [len] the number of images (and of masks, when
    there are masks), [get(index)] raises an IndexError for every index at
    or above [len] and for every index below [-len]; an index of
    [-len, 0) is not an error, it reads sample [index + len]. *)
Theorem getitem_index_error {A : Type} (B : Backend A)
  (self : BaseImageSegmentationDataset) (index : Z) (w : world) :
  len self = Z.of_nat (length (images self)) ->
  (forall ms, masks self = Some ms -> length ms = length (images self)) ->
  ((len self <= index \/ index < - len self)%Z ->
   getitem B self index w = Raise IndexError) /\
  ((- len self <= index < 0)%Z ->
   getitem B self index w = getitem B self (index + len self) w).
Proof.
  intros Hlen Hmasks. rewrite Hlen. split.
  - intros Hout. unfold getitem, _load_image_and_mask.
    rewrite (list_getitem_out_of_range (images self) Hout). reflexivity.
  - intros Hneg. unfold getitem, _load_image_and_mask.
    rewrite (proj1 (list_getitem_negative (images self) Hneg)).
    destruct (masks self) as [ms |] eqn:Hms; [| reflexivity].
    rewrite <- (Hmasks ms eq_refl) in Hneg |- *.
    rewrite (proj1 (list_getitem_negative ms Hneg)). reflexivity.
Qed.

Lemma getitem_index_error_witness :
  getitem Sample.backend Sample.two_images 2 Sample.quarter = Raise IndexError.
Proof.
  assert (Hmasks : forall ms, masks Sample.two_images = Some ms ->
                     length ms = length (images Sample.two_images)).
  { intros ms Hms. discriminate Hms. }
  apply (proj1 (getitem_index_error Sample.backend Sample.two_images
                  2 Sample.quarter eq_refl Hmasks)).
  left. cbn. lia.
Defined.

(** C5 as stated fails on a negative index: [get(-1)] on a dataset of
    two images returns the last sample. *)
Lemma getitem_negative_index_counterexample :
  ~ (0 <= -1 < len Sample.two_images)%Z /\
  exists image self' w',
    getitem Sample.backend Sample.two_images (-1) Sample.quarter
    = Ok (image, PyInt 0, self', w').
Proof.
  split; [cbn; lia |].
  eexists _, _, _. reflexivity.
Qed.

(** ** The "no mask" sentinel *)

Section Sentinel.
Context {A : Type} (B : Backend A).

(** On an integer mask a call runs the image half at most: the mask half
    of the transform does not appear. *)
Lemma call_on_sentinel (t : transformer) (image : ndarray A) (z : Z)
  (w : world) :
  call B t image (PyInt z) w =
  if should_apply t (np_random w O) && apply_image t then
    ('(image', t', w') <- transform B t image Image (snd (np_random_rand w)) ;;
     Ok (RetPair image' (PyInt z), t', w'))
  else Ok (RetPair image (PyInt z), t, snd (np_random_rand w)).
Proof.
  unfold call. cbn [np_random_rand snd].
  destruct (should_apply t (np_random w O)); cbn [andb bind]; [| reflexivity].
  unfold apply_halves.
  destruct (apply_image t); cbn [bind]; [| reflexivity].
  destruct (transform B t image Image _) as [[[image' t'] w'] |]; reflexivity.
Qed.

Lemma call_keeps_sentinel (t t' : transformer) (image : ndarray A) (z : Z)
  (w w' : world) (value : call_result) :
  call B t image (PyInt z) w = Ok (value, t', w') ->
  exists image', value = RetPair image' (PyInt z).
Proof.
  rewrite call_on_sentinel.
  destruct (should_apply t (np_random w O) && apply_image t).
  - destruct (transform B t image Image _) as [[[image' t''] w''] |];
      cbn [bind]; intros Hrun; [| discriminate Hrun].
    injection Hrun as <- _ _. exists image'. reflexivity.
  - intros Hrun. injection Hrun as <- _ _. exists image. reflexivity.
Qed.

Lemma compose_keeps_sentinel (ts ts' : list transformer)
  (image image' : ndarray A) (z : Z) (mask' : pyobj) (w w' : world) :
  ImageMaskTransformsCompose_call B ts image (PyInt z) w
    = Ok (image', mask', ts', w') ->
  mask' = PyInt z.
Proof.
  revert ts' image image' mask' w w'.
  induction ts as [| t ts IH]; intros ts' image image' mask' w w' Hrun.
  - cbn in Hrun. injection Hrun as _ <- _ _. reflexivity.
  - cbn [ImageMaskTransformsCompose_call] in Hrun.
    destruct (call B t image (PyInt z) w) as [[[value t1] w1] |] eqn:Hcall;
      [| discriminate Hrun].
    destruct (call_keeps_sentinel _ _ _ _ Hcall) as (image1 & ->).
    cbn [bind unpack_pair] in Hrun.
    destruct (ImageMaskTransformsCompose_call B ts image1 (PyInt z) w1)
      as [[[[image2 mask2] ts2] w2] |] eqn:Hrest; [| discriminate Hrun].
    cbn [bind] in Hrun. injection Hrun as _ <- _ _.
    apply (IH _ _ _ _ _ _ Hrest).
Qed.

Lemma pair_transform_keeps_sentinel (t t' : pair_callable)
  (image image' : ndarray A) (z : Z) (mask' : pyobj) (w w' : world) :
  call_pair_transform B t image (PyInt z) w = Ok (image', mask', t', w') ->
  mask' = PyInt z.
Proof.
  destruct t as [t | ts]; cbn [call_pair_transform]; intros Hrun.
  - destruct (call B t image (PyInt z) w) as [[[value t1] w1] |] eqn:Hcall;
      [| discriminate Hrun].
    destruct (call_keeps_sentinel _ _ _ _ Hcall) as (image1 & ->).
    cbn [bind unpack_pair] in Hrun. injection Hrun as _ <- _ _. reflexivity.
  - destruct (ImageMaskTransformsCompose_call B ts image (PyInt z) w)
      as [[[[image2 mask2] ts2] w2] |] eqn:Hrest; [| discriminate Hrun].
    cbn [bind] in Hrun. injection Hrun as _ <- _ _.
    apply (compose_keeps_sentinel _ _ _ _ Hrest).
Qed.

(** On the sentinel, [_apply_transforms] does not depend on the mask
    post-transform and leaves the sentinel in place. *)
Lemma apply_transforms_on_sentinel (self : BaseImageSegmentationDataset)
  (image : ndarray A) (z : Z) (w : world) :
  _apply_transforms B self image (PyInt z) w =
  ('(image', self', w') <-
     ('(image1, mask1, self1, w1) <-
        _apply_transforms B (set_mask_transform self None) image (PyInt z) w ;;
      Ok (image1, set_mask_transform self1 (mask_transform self), w1)) ;;
   Ok (image', PyInt z, self', w')).
Proof.
  destruct self as [imgs msks n pt it mt].
  unfold _apply_transforms, set_mask_transform, set_pair_transform.
  cbn [pair_transform image_transform mask_transform images masks nb_images].
  destruct pt as [t |].
  - destruct (call_pair_transform B t image (PyInt z) w)
      as [[[[image1 mask1] t1] w1] |] eqn:Hpair; [| reflexivity].
    pose proof Hpair as Hmask.
    apply pair_transform_keeps_sentinel in Hmask. subst mask1.
    cbn [bind pair_transform image_transform mask_transform images masks
           nb_images].
    destruct it as [f |]; [destruct (f image1) |]; cbn [bind];
      destruct mt; reflexivity.
  - cbn [bind pair_transform image_transform mask_transform images masks
           nb_images].
    destruct it as [f |]; [destruct (f image) |]; cbn [bind];
      destruct mt; reflexivity.
Qed.

(** C3: on a dataset without masks the mask given to the transforms is the
    sentinel; [get(index)] then does not depend on the mask post-transform
    (it is the result of the dataset without one) and every result carries
    the sentinel as its mask; and a paired transform called on the sentinel
    runs the image half at most, whatever [apply_mask] is. *)
Theorem sentinel_mask_untouched (self : BaseImageSegmentationDataset)
  (index : Z) (w : world) :
  masks self = None ->
  getitem B self index w =
  ('(image, mask, self', w') <-
     getitem B (set_mask_transform self None) index w ;;
   Ok (image, mask, set_mask_transform self' (mask_transform self), w')) /\
  (forall image mask self' w',
     getitem B self index w = Ok (image, mask, self', w') ->
     mask = PyInt 0) /\
  (forall (t : transformer) (image : ndarray A) (z : Z) (w1 : world),
     call B t image (PyInt z) w1 =
     if should_apply t (np_random w1 O) && apply_image t then
       ('(image', t', w') <-
          transform B t image Image (snd (np_random_rand w1)) ;;
        Ok (RetPair image' (PyInt z), t', w'))
     else Ok (RetPair image (PyInt z), t, snd (np_random_rand w1))).
Proof.
  intros Hmasks.
  assert (Hload :
    _load_image_and_mask B self index =
    (image <- (image_filename <- list_getitem (images self) index ;;
               load_image B image_filename false) ;;
     Ok (image, PyInt 0))).
  { unfold _load_image_and_mask. rewrite Hmasks.
    destruct (list_getitem (images self) index) as [name |]; [| reflexivity].
    cbn [bind]. destruct (load_image B name false); reflexivity. }
  assert (Hload' :
    _load_image_and_mask B (set_mask_transform self None) index =
    _load_image_and_mask B self index).
  { destruct self; reflexivity. }
  split; [| split].
  - unfold getitem. rewrite Hload', Hload.
    destruct (image_filename <- list_getitem (images self) index ;;
              load_image B image_filename false) as [image |];
      [| reflexivity].
    cbn [bind]. rewrite apply_transforms_on_sentinel.
    destruct (_apply_transforms B (set_mask_transform self None) image
                (PyInt 0) w) as [[[[image1 mask1] self1] w1] |] eqn:Hrun;
      [| reflexivity].
    cbn [bind].
    rewrite apply_transforms_on_sentinel in Hrun.
    destruct (_apply_transforms B
                (set_mask_transform (set_mask_transform self None) None)
                image (PyInt 0) w) as [[[[image2 mask2] self2] w2] |];
      [| discriminate Hrun].
    cbn [bind] in Hrun. injection Hrun as _ <- _ _. reflexivity.
  - intros image mask self' w'. unfold getitem. rewrite Hload.
    destruct (image_filename <- list_getitem (images self) index ;;
              load_image B image_filename false) as [image0 |];
      [| intros Hrun; discriminate Hrun].
    cbn [bind]. rewrite apply_transforms_on_sentinel.
    destruct (_apply_transforms B (set_mask_transform self None) image0
                (PyInt 0) w) as [[[[image1 mask1] self1] w1] |];
      cbn [bind]; intros Hrun; [| discriminate Hrun].
    injection Hrun as _ <- _ _. reflexivity.
  - intros t image z w1. apply call_on_sentinel.
Qed.

End Sentinel.

(** A closed instance: the dataset of two images whose mask post-transform
    raises on every call still returns sample 0, with the sentinel. *)
Lemma sentinel_mask_untouched_witness :
  exists image self' w',
    getitem Sample.backend Sample.two_images 0 Sample.quarter
    = Ok (image, PyInt 0, self', w').
Proof.
  destruct (sentinel_mask_untouched Sample.backend Sample.two_images 0
              Sample.quarter eq_refl) as (Hindep & _ & _).
  rewrite Hindep. eexists _, _, _. reflexivity.
Defined.

(** * Further properties of the transforms *)

(** ** Flips and transposition, element by element *)

Lemma in_bounds_2 (H W : nat) (idx : list nat) :
  in_bounds [H; W] idx ->
  exists i j, idx = [i; j] /\ (i < H)%nat /\ (j < W)%nat.
Proof.
  unfold in_bounds. intros Hin.
  inversion Hin as [| i ? ? ? Hi Hin1]; subst.
  inversion Hin1 as [| j ? ? ? Hj Hin2]; subst.
  inversion Hin2; subst.
  exists i, j. repeat split; assumption.
Qed.

(** X1: the vertical flip keeps the shape and puts row [H - 1 - i] at row
    [i]; the horizontal flip keeps the shape and puts column [W - 1 - j]
    at column [j]. *)
Theorem flips_mirror {A : Type} (B : Backend A) (kw : kwargs)
  (image : ndarray A) (H W : nat) (rest : list nat)
  (mode : ImageMaskTransformMode) (w : world) :
  shape image = H :: W :: rest ->
  (exists out,
     transform B (RandomVerticalFlip_init kw) image mode w
       = Ok (out, RandomVerticalFlip_init kw, w) /\
     shape out = H :: W :: rest /\
     forall i j r,
       item out (i :: j :: r) = item image ((H - 1 - i)%nat :: j :: r)) /\
  (exists out,
     transform B (RandomHorizontalFlip_init kw) image mode w
       = Ok (out, RandomHorizontalFlip_init kw, w) /\
     shape out = H :: W :: rest /\
     forall i j r,
       item out (i :: j :: r) = item image (i :: (W - 1 - j)%nat :: r)).
Proof.
  intros Hshape. split.
  - unfold transform. cbn [cls RandomVerticalFlip_init
                             BaseImageMaskTransformer_init].
    unfold RandomVerticalFlip_transform, flipud, ndim.
    rewrite Hshape. cbn [length Nat.ltb Nat.leb bind].
    eexists. split; [reflexivity |]. split; reflexivity.
  - unfold transform. cbn [cls RandomHorizontalFlip_init
                             BaseImageMaskTransformer_init].
    unfold RandomHorizontalFlip_transform, fliplr, ndim.
    rewrite Hshape. cbn [length Nat.ltb Nat.leb bind].
    eexists. split; [reflexivity |]. split; reflexivity.
Qed.

Lemma flips_mirror_witness :
  exists out,
    transform Sample.backend (RandomVerticalFlip_init default_kwargs)
      Sample.image_2x3 Image Sample.quarter
      = Ok (out, RandomVerticalFlip_init default_kwargs, Sample.quarter) /\
    tolist out = [4; 5; 6; 1; 2; 3]%Z.
Proof.
  destruct (flips_mirror Sample.backend default_kwargs Sample.image_2x3
              Image Sample.quarter eq_refl) as ((out & Hrun & Hshape & Hitem) & _).
  exists out. split; [exact Hrun |].
  unfold tolist. rewrite Hshape. cbn.
  rewrite !Hitem. reflexivity.
Defined.

(** X2: below two dimensions the horizontal flip raises a ValueError; the
    vertical flip raises it on a zero-dimensional array only. *)
Theorem flips_reject_low_rank {A : Type} (B : Backend A) (kw : kwargs)
  (image : ndarray A) (mode : ImageMaskTransformMode) (w : world) :
  (ndim image < 2)%nat ->
  transform B (RandomHorizontalFlip_init kw) image mode w = Raise ValueError /\
  (transform B (RandomVerticalFlip_init kw) image mode w = Raise ValueError
   <-> ndim image = 0%nat).
Proof.
  intros Hrank. unfold transform.
  cbn [cls RandomVerticalFlip_init RandomHorizontalFlip_init
         BaseImageMaskTransformer_init].
  unfold RandomHorizontalFlip_transform, RandomVerticalFlip_transform,
    fliplr, flipud.
  destruct (Nat.ltb_spec (ndim image) 2) as [_ | Hge]; [| lia].
  split; [reflexivity |].
  destruct (Nat.ltb_spec (ndim image) 1) as [Hlt | Hge]; cbn [bind].
  - split; [intros _; lia | reflexivity].
  - split; [discriminate | lia].
Qed.

Lemma flips_reject_low_rank_witness :
  transform Sample.backend (RandomHorizontalFlip_init default_kwargs)
    (full [5]%nat 1%Z) Image Sample.quarter = Raise ValueError.
Proof.
  apply (flips_reject_low_rank Sample.backend default_kwargs
           (full [5]%nat 1%Z) Image Sample.quarter).
  cbn. lia.
Defined.

(** X3: on an array of two or three dimensions the transposition swaps
    the first two axes and keeps the channel axis: the result has shape
    (W, H) or (W, H, C) and its element (j, i, ...) is element (i, j, ...)
    of the input; applied twice it gives an array equal to the input. *)
Theorem transpose_swaps_axes {A : Type} (B : Backend A) (kw : kwargs)
  (image : ndarray A) (H W : nat) (channels : list nat)
  (mode : ImageMaskTransformMode) (w : world) :
  shape image = H :: W :: channels ->
  (length channels <= 1)%nat ->
  exists once twice,
    transform B (RandomTranspose_init kw) image mode w
      = Ok (once, RandomTranspose_init kw, w) /\
    shape once = W :: H :: channels /\
    (forall i j c, length c = length channels ->
       item once (j :: i :: c) = item image (i :: j :: c)) /\
    transform B (RandomTranspose_init kw) once mode w
      = Ok (twice, RandomTranspose_init kw, w) /\
    array_equal twice image.
Proof.
  intros Hshape Hchannels. unfold transform.
  cbn [cls RandomTranspose_init BaseImageMaskTransformer_init].
  unfold RandomTranspose_transform, transpose, ndim. rewrite Hshape.
  destruct channels as [| C [| C' channels]]; cbn [length] in *; [| | lia].
  - cbn. eexists. eexists. split; [reflexivity |].
    split; [reflexivity |]. split.
    + intros i j [| c0 c] Hc; [reflexivity | discriminate Hc].
    + split; [reflexivity |].
      split; [cbn; symmetry; exact Hshape |].
      intros idx Hin. cbn [shape] in Hin.
      destruct (in_bounds_2 Hin) as (i & j & -> & _). reflexivity.
  - cbn. eexists. eexists. split; [reflexivity |].
    split; [reflexivity |]. split.
    + intros i j [| c0 [| c1 c]] Hc; try discriminate Hc. reflexivity.
    + split; [reflexivity |].
      split; [cbn; symmetry; exact Hshape |].
      intros idx Hin. cbn [shape] in Hin.
      destruct (in_bounds_3 Hin) as (i & j & c & -> & _). reflexivity.
Qed.

Lemma transpose_swaps_axes_witness :
  exists once,
    transform Sample.backend (RandomTranspose_init default_kwargs)
      Sample.image_2x3 Image Sample.quarter
      = Ok (once, RandomTranspose_init default_kwargs, Sample.quarter) /\
    shape once = [3; 2]%nat.
Proof.
  assert (Hc : (length (@nil nat) <= 1)%nat) by (cbn; lia).
  destruct (transpose_swaps_axes Sample.backend default_kwargs
              Sample.image_2x3 Image Sample.quarter eq_refl Hc)
    as (once & twice & Hrun & Hshape & _).
  exists once. split; assumption.
Defined.

(** X4: on an array of one dimension, or of four or more, the
    transposition raises a ValueError. *)
Theorem transpose_rejects_other_ranks {A : Type} (B : Backend A)
  (kw : kwargs) (image : ndarray A) (mode : ImageMaskTransformMode)
  (w : world) :
  ndim image <> 2%nat ->
  ndim image <> 3%nat ->
  transform B (RandomTranspose_init kw) image mode w = Raise ValueError.
Proof.
  intros H2 H3. unfold transform.
  cbn [cls RandomTranspose_init BaseImageMaskTransformer_init].
  unfold RandomTranspose_transform, transpose. fold (ndim image).
  destruct (Nat.eqb_spec (ndim image) 3) as [E | _]; [contradiction |].
  unfold is_permutation. cbn [length].
  destruct (Nat.eqb_spec 2 (ndim image)) as [E | _];
    [symmetry in E; contradiction | reflexivity].
Qed.

Lemma transpose_rejects_other_ranks_witness :
  transform Sample.backend (RandomTranspose_init default_kwargs)
    (full [5]%nat 1%Z) Image Sample.quarter = Raise ValueError.
Proof.
  apply (transpose_rejects_other_ranks Sample.backend default_kwargs
           (full [5]%nat 1%Z) Image Sample.quarter); cbn; lia.
Defined.

(** ** Squarify on any image *)

(** The slices of the axes after the first two select the whole axis. *)
Lemma squarify_rest_slices (pre rest : list nat) :
  map (fun ic : nat * (Z * Z) =>
         (fst (snd ic),
          (Z.of_nat (nth (fst ic) (pre ++ rest) O) - snd (snd ic))%Z))
      (combine (seq (length pre) (length rest))
               (repeat (0, 0)%Z (length rest)))
  = map (fun n => (0, Z.of_nat n - 0)%Z) rest.
Proof.
  revert pre. induction rest as [| n rest IH]; intros pre; [reflexivity |].
  cbn [length seq repeat combine map fst snd]. f_equal.
  - rewrite app_nth2 by lia. rewrite Nat.sub_diag. reflexivity.
  - specialize (IH (pre ++ [n])).
    rewrite length_app, Nat.add_1_r, <- app_assoc in IH. exact IH.
Qed.

Lemma whole_axis_slices (rest : list nat) :
  slice_shape (map (fun n => (0, Z.of_nat n - 0)%Z) rest) rest = Some rest /\
  forall idx,
    slice_index (map (fun n => (0, Z.of_nat n - 0)%Z) rest) rest idx = idx.
Proof.
  induction rest as [| n rest [IHs IHi]]; [split; [| intros []]; reflexivity |].
  assert (Hb0 : slice_bound 0 n = O) by (unfold slice_bound; cbn; lia).
  assert (Hbn : slice_bound (Z.of_nat n - 0) n = n).
  { unfold slice_bound.
    destruct (Z.ltb_spec (Z.of_nat n - 0) 0) as [Hneg | _]; lia. }
  split.
  - cbn [map slice_shape]. rewrite IHs. cbn [option_map].
    unfold slice_length. cbn [fst snd]. rewrite Hb0, Hbn, Nat.sub_0_r.
    reflexivity.
  - intros [| i idx]; [reflexivity |].
    cbn [map slice_index fst]. rewrite Hb0, IHi. reflexivity.
Qed.

(** One side of length [n] cropped to the target [t]: the slice starts at
    [(n - t) / 2] and has length [t]. *)
Lemma squarify_axis (n t : nat) :
  (t <= n)%nat ->
  let crop := squarify_crop (Z.of_nat t) (Z.of_nat n) in
  slice_bound (fst crop) n = ((n - t) / 2)%nat /\
  slice_length (fst crop, (Z.of_nat n - snd crop)%Z) n = t.
Proof.
  intros Hle. unfold squarify_crop.
  destruct (Z.leb_spec (Z.of_nat n) (Z.of_nat t)) as [Hsmall | Hbig];
    cbn [fst snd]; unfold slice_length, slice_bound; cbn [fst snd].
  - assert (n = t) by lia. subst t. rewrite Nat.sub_diag.
    destruct (Z.ltb_spec (Z.of_nat n - 0) 0) as [Hneg | _]; [lia |].
    cbn. split; lia.
  - set (d := ((Z.of_nat n - Z.of_nat t) / 2)%Z).
    assert (Hd : (0 <= d /\ 2 * d <= Z.of_nat n - Z.of_nat t)%Z).
    { unfold d. split; [apply Z.div_pos; lia |].
      apply Z.mul_div_le. lia. }
    assert (Hnat : Z.to_nat d = ((n - t) / 2)%nat).
    { unfold d. rewrite <- Nat2Z.inj_sub by lia.
      change 2%Z with (Z.of_nat 2). rewrite <- Nat2Z.inj_div.
      apply Nat2Z.id. }
    destruct (Z.ltb_spec d 0) as [Hneg | _]; [lia |].
    destruct (Z.ltb_spec
                (Z.of_nat n - (Z.of_nat n - Z.of_nat t - d)) 0)
      as [Hneg | _]; [lia |].
    split; [rewrite <- Hnat; lia | lia].
Qed.

Lemma squarify_transform_spec {A : Type} (B : Backend A)
  (image : ndarray A) (H W : nat) (rest : list nat) :
  numpy_list_index_as_tuple B = true ->
  shape image = H :: W :: rest ->
  exists out,
    Squarify_transform B image = Ok out /\
    shape out = Nat.min H W :: Nat.min H W :: rest /\
    forall i j r,
      item out (i :: j :: r)
      = item image (((H - Nat.min H W) / 2 + i)%nat
                    :: ((W - Nat.min H W) / 2 + j)%nat :: r).
Proof.
  intros Hnumpy Hshape. unfold Squarify_transform, squarify_crops, shape_at.
  rewrite Hshape, Hnumpy. cbn [nth_error bind length map Nat.sub].
  rewrite Nat.sub_0_r. rewrite <- Nat2Z.inj_min.
  set (t := Nat.min H W).
  unfold squarify_slices.
  rewrite length_app, repeat_length. cbn [length Nat.add seq app combine map].
  pose proof (squarify_rest_slices [H; W] rest) as Hrest.
  cbn [length app] in Hrest. rewrite Hrest.
  cbn [fst snd nth].
  destruct (squarify_axis (n := H) (t := t)) as [HbH HlH]; [unfold t; lia |].
  destruct (squarify_axis (n := W) (t := t)) as [HbW HlW]; [unfold t; lia |].
  destruct (whole_axis_slices rest) as [Hs Hi].
  unfold getitem_slices. rewrite Hshape. cbn [slice_shape].
  rewrite Hs. cbn [option_map]. rewrite HlH, HlW.
  eexists. split; [reflexivity |]. split; [reflexivity |].
  intros i j r. cbn [item slice_index fst]. rewrite HbH, HbW, Hi.
  reflexivity.
Qed.

(** X5: Squarify indexes the array with a list of slices.  With numpy
    before 1.23, on any array of two or more dimensions it returns the
    centred square: both spatial sides become the shorter side [t], the
    other axes are kept, and element (i, j, ...) of the result is element
    ((H - t) / 2 + i, (W - t) / 2 + j, ...) of the input.  With numpy from
    1.23 on it raises an IndexError on every array. *)
Theorem squarify_center_crop {A : Type} (B : Backend A) (kw : kwargs)
  (image : ndarray A) (H W : nat) (rest : list nat)
  (mode : ImageMaskTransformMode) (w : world) :
  shape image = H :: W :: rest ->
  (numpy_list_index_as_tuple B = true ->
   exists out,
     transform B (Squarify_init kw) image mode w
       = Ok (out, Squarify_init kw, w) /\
     shape out = Nat.min H W :: Nat.min H W :: rest /\
     forall i j r,
       item out (i :: j :: r)
       = item image (((H - Nat.min H W) / 2 + i)%nat
                     :: ((W - Nat.min H W) / 2 + j)%nat :: r)) /\
  (numpy_list_index_as_tuple B = false ->
   transform B (Squarify_init kw) image mode w = Raise IndexError).
Proof.
  intros Hshape. split; intros Hnumpy.
  - destruct (squarify_transform_spec B image Hnumpy Hshape)
      as (out & Hrun & Hs & Hi).
    exists out. unfold transform.
    cbn [cls Squarify_init set_apply_always BaseImageMaskTransformer_init].
    rewrite Hrun. repeat split; assumption.
  - unfold transform.
    cbn [cls Squarify_init set_apply_always BaseImageMaskTransformer_init].
    unfold Squarify_transform, squarify_crops, shape_at.
    rewrite Hshape, Hnumpy. reflexivity.
Qed.

Lemma squarify_center_crop_witness :
  (exists out,
     transform Sample.backend_numpy_1_22 (Squarify_init default_kwargs)
       Sample.image_2x3 Image Sample.quarter
       = Ok (out, Squarify_init default_kwargs, Sample.quarter) /\
     shape out = [2; 2]%nat) /\
  transform Sample.backend (Squarify_init default_kwargs)
    Sample.image_2x3 Image Sample.quarter = Raise IndexError.
Proof.
  split.
  - destruct (squarify_center_crop Sample.backend_numpy_1_22 default_kwargs
                Sample.image_2x3 Image Sample.quarter eq_refl)
      as (Hok & _).
    destruct (Hok eq_refl) as (out & Hrun & Hshape & _).
    exists out. split; assumption.
  - apply (squarify_center_crop Sample.backend default_kwargs
             Sample.image_2x3 Image Sample.quarter eq_refl).
    reflexivity.
Defined.

(** X6: with numpy before 1.23 Squarify is idempotent: applied to its own
    result it returns an array equal to that result; in particular it
    leaves a square image as it is. *)
Theorem squarify_idempotent {A : Type} (B : Backend A) (kw : kwargs)
  (image : ndarray A) (mode mode' : ImageMaskTransformMode) (w : world) :
  numpy_list_index_as_tuple B = true ->
  (2 <= ndim image)%nat ->
  exists once twice,
    transform B (Squarify_init kw) image mode w
      = Ok (once, Squarify_init kw, w) /\
    transform B (Squarify_init kw) once mode' w
      = Ok (twice, Squarify_init kw, w) /\
    array_equal twice once /\
    (forall n rest, shape image = n :: n :: rest -> array_equal once image).
Proof.
  intros Hnumpy Hrank. unfold ndim in Hrank.
  destruct (shape image) as [| H [| W rest]] eqn:Hshape;
    cbn [length] in Hrank; try lia.
  destruct (squarify_transform_spec B image Hnumpy Hshape)
    as (once & Hrun & Hs & Hi).
  destruct (squarify_transform_spec B once Hnumpy Hs)
    as (twice & Hrun' & Hs' & Hi').
  rewrite Nat.min_id in Hs'. rewrite Nat.min_id, Nat.sub_diag in Hi'.
  cbn in Hi'.
  exists once, twice. unfold transform.
  cbn [cls Squarify_init set_apply_always BaseImageMaskTransformer_init].
  rewrite Hrun, Hrun'. cbn [bind].
  split; [reflexivity |]. split; [reflexivity |].
  split; [| intros n rest' Hsq; injection Hsq as -> -> ->].
  - split; [rewrite Hs, Hs'; reflexivity |].
    intros idx Hin. rewrite Hs' in Hin.
    inversion Hin as [| i ? ? ? _ Hin1]; subst.
    inversion Hin1 as [| j ? ? ? _ Hin2]; subst.
    apply Hi'.
  - rewrite Nat.min_id in Hs. rewrite Nat.min_id, Nat.sub_diag in Hi.
    cbn in Hi.
    split; [rewrite Hs, Hshape; reflexivity |].
    intros idx Hin. rewrite Hs in Hin.
    inversion Hin as [| i ? ? ? _ Hin1]; subst.
    inversion Hin1 as [| j ? ? ? _ Hin2]; subst.
    apply Hi.
Qed.

Lemma squarify_idempotent_witness :
  exists once twice,
    transform Sample.backend_numpy_1_22 (Squarify_init default_kwargs)
      Sample.image_2x3 Image Sample.quarter
      = Ok (once, Squarify_init default_kwargs, Sample.quarter) /\
    transform Sample.backend_numpy_1_22 (Squarify_init default_kwargs)
      once Mask Sample.quarter
      = Ok (twice, Squarify_init default_kwargs, Sample.quarter) /\
    array_equal twice once.
Proof.
  assert (Hrank : (2 <= ndim Sample.image_2x3)%nat) by (cbn; lia).
  destruct (squarify_idempotent Sample.backend_numpy_1_22 default_kwargs
              Sample.image_2x3 Image Mask Sample.quarter eq_refl Hrank)
    as (once & twice & H1 & H2 & H3 & _).
  exists once, twice. repeat split; try assumption; apply H3.
Defined.

(** X7: below two dimensions Squarify raises an IndexError. *)
Theorem squarify_rejects_low_rank {A : Type} (B : Backend A) (kw : kwargs)
  (image : ndarray A) (mode : ImageMaskTransformMode) (w : world) :
  (ndim image < 2)%nat ->
  transform B (Squarify_init kw) image mode w = Raise IndexError.
Proof.
  intros Hrank. unfold transform.
  cbn [cls Squarify_init set_apply_always BaseImageMaskTransformer_init].
  unfold Squarify_transform, squarify_crops, shape_at. unfold ndim in Hrank.
  destruct (shape image) as [| H [| W rest]]; cbn [length] in Hrank;
    try lia; reflexivity.
Qed.

Lemma squarify_rejects_low_rank_witness :
  transform Sample.backend (Squarify_init default_kwargs)
    (full [5]%nat 1%Z) Image Sample.quarter = Raise IndexError.
Proof.
  apply (squarify_rejects_low_rank Sample.backend default_kwargs
           (full [5]%nat 1%Z) Image Sample.quarter).
  cbn. lia.
Defined.

(** ** Composition *)

Section CompositionProperties.
Context {A : Type} (B : Backend A).

(** X8: a pipeline runs its steps in order: the composition of
    [ts1 ++ ts2] is the composition of [ts1] followed by that of [ts2] on
    its output, each part returning its own updated instances; the empty
    pipeline returns the pair as it is. *)
Theorem compose_is_sequential (ts1 ts2 : list transformer)
  (image : ndarray A) (mask : pyobj) (w : world) :
  ImageMaskTransformsCompose_call B (ts1 ++ ts2) image mask w =
  ('(image1, mask1, ts1', w1) <-
     ImageMaskTransformsCompose_call B ts1 image mask w ;;
   '(image2, mask2, ts2', w2) <-
     ImageMaskTransformsCompose_call B ts2 image1 mask1 w1 ;;
   Ok (image2, mask2, ts1' ++ ts2', w2)) /\
  ImageMaskTransformsCompose_call B [] image mask w = Ok (image, mask, [], w).
Proof.
  split; [| reflexivity].
  revert image mask w. induction ts1 as [| t ts1 IH]; intros image mask w.
  - cbn [app ImageMaskTransformsCompose_call bind].
    destruct (ImageMaskTransformsCompose_call B ts2 image mask w)
      as [[[[image2 mask2] ts2'] w2] |]; reflexivity.
  - cbn [app ImageMaskTransformsCompose_call].
    destruct (call B t image mask w) as [[[value t'] w1] |]; [| reflexivity].
    cbn [bind].
    destruct (unpack_pair value) as [[image1 mask1] |]; [| reflexivity].
    cbn [bind]. rewrite IH.
    destruct (ImageMaskTransformsCompose_call B ts1 image1 mask1 w1)
      as [[[[image2 mask2] ts1'] w2] |]; [| reflexivity].
    cbn [bind].
    destruct (ImageMaskTransformsCompose_call B ts2 image2 mask2 w2)
      as [[[[image3 mask3] ts2'] w3] |]; reflexivity.
Qed.

(** X9: a transformer called with [mask = None] returns the image alone,
    so a non-empty composition called with [None] unpacks an array instead
    of a pair: it raises a ValueError unless the first axis of that array
    has length two, and a TypeError on a zero-dimensional array. *)
Theorem compose_needs_a_mask (t t' : transformer) (ts : list transformer)
  (image : ndarray A) (w w' : world) (value : call_result) :
  call B t image PyNone w = Ok (value, t', w') ->
  exists image',
    value = RetImage image' /\
    (forall n rest, shape image' = n :: rest -> n <> 2%nat ->
       ImageMaskTransformsCompose_call B (t :: ts) image PyNone w
       = Raise ValueError) /\
    (shape image' = [] ->
       ImageMaskTransformsCompose_call B (t :: ts) image PyNone w
       = Raise TypeError).
Proof.
  intros Hcall.
  assert (Hvalue : exists image', value = RetImage image').
  { revert Hcall. unfold call. cbn [np_random_rand].
    destruct (should_apply t (np_random w O)).
    - unfold apply_halves.
      destruct (if apply_image t then transform B t image Image _
                else Ok (image, t, _)) as [[[image1 t1] w1] |];
        cbn [bind]; intros Hrun; [| discriminate Hrun].
      injection Hrun as <- _ _. exists image1. reflexivity.
    - cbn [bind]. intros Hrun. injection Hrun as <- _ _.
      exists image. reflexivity. }
  destruct Hvalue as (image' & ->). exists image'.
  split; [reflexivity |].
  cbn [ImageMaskTransformsCompose_call]. rewrite Hcall.
  cbn [bind unpack_pair]. split.
  - intros n rest Hshape Hn. rewrite Hshape.
    destruct n as [| [| [| n]]]; try reflexivity. contradiction.
  - intros Hshape. rewrite Hshape. reflexivity.
Qed.

End CompositionProperties.

Lemma compose_needs_a_mask_witness :
  ImageMaskTransformsCompose_call Sample.backend
    [RandomVerticalFlip_init default_kwargs] Sample.image_4x4 PyNone
    Sample.quarter
  = Raise ValueError.
Proof.
  destruct (compose_needs_a_mask Sample.backend
              (RandomVerticalFlip_init default_kwargs) []
              Sample.image_4x4 Sample.quarter eq_refl)
    as (image' & Hvalue & Hraise & _).
  injection Hvalue as <-.
  apply (Hraise 4%nat [4%nat]); [reflexivity | lia].
Defined.

(** ** What a call leaves alone *)

Section FrameProperties.
Context {A : Type} (B : Backend A).

Lemma transform_keeps_flags (self self' : transformer) (x y : ndarray A)
  (mode : ImageMaskTransformMode) (w w' : world) :
  transform B self x mode w = Ok (y, self', w') ->
  p self' = p self /\
  apply_always self' = apply_always self /\
  apply_image self' = apply_image self /\
  apply_mask self' = apply_mask self /\
  shares_geometry (cls self') = shares_geometry (cls self).
Proof.
  unfold transform. destruct self as [pr aa ai am c]. cbn [cls].
  destruct c;
    match goal with
    | |- bind ?c _ = _ -> _ =>
        destruct c as [r |]; cbn [bind]; intros Hrun;
        [| discriminate Hrun]
    end;
    try (destruct r as [[? ?] ?]); try (destruct r as [? ?]);
    injection Hrun as _ <- _; cbn; repeat split.
Qed.

Lemma transform_stateless (self self' : transformer) (x y : ndarray A)
  (mode : ImageMaskTransformMode) (w w' : world) :
  shares_geometry (cls self) = false ->
  transform B self x mode w = Ok (y, self', w') ->
  self' = self /\ np_random w' = np_random w.
Proof.
  unfold transform. destruct self as [pr aa ai am c]. cbn [cls].
  destruct c; cbn [shares_geometry]; intros Hs; try discriminate Hs;
    match goal with
    | |- bind ?c _ = _ -> _ =>
        destruct c as [r |] eqn:Hc; cbn [bind]; intros Hrun;
        [| discriminate Hrun]
    end;
    try (destruct r as [image' w1]);
    injection Hrun as _ <- <-; try (split; reflexivity).
  - split; [reflexivity |]. unfold Add_transform in Hc.
    destruct (iaa_Add_augment_image B _ _ x _) as [[i t] |];
      cbn [bind] in Hc; [| discriminate Hc].
    injection Hc as _ <-. reflexivity.
  - split; [reflexivity |]. unfold ContrastNormalization_transform in Hc.
    destruct (iaa_ContrastNormalization_augment_image B _ _ x _)
      as [[i t] |]; cbn [bind] in Hc; [| discriminate Hc].
    injection Hc as _ <-. reflexivity.
Qed.

(** X10: whatever its class, a successful call leaves [p], [apply_always],
    [apply_image] and [apply_mask] of the instance as they were. *)
Theorem call_keeps_flags (self self' : transformer) (image : ndarray A)
  (mask : pyobj) (w w' : world) (value : call_result) :
  call B self image mask w = Ok (value, self', w') ->
  p self' = p self /\
  apply_always self' = apply_always self /\
  apply_image self' = apply_image self /\
  apply_mask self' = apply_mask self.
Proof.
  unfold call. cbn [np_random_rand].
  destruct (should_apply self (np_random w O));
    [| cbn [bind]; intros Hrun; injection Hrun as _ <- _; repeat split].
  unfold apply_halves.
  assert (Himage :
    forall r, (if apply_image self
               then transform B self image Image
                      {| np_random := tape_tail (np_random w);
                         ia_random := ia_random w |}
               else Ok (image, self,
                        {| np_random := tape_tail (np_random w);
                           ia_random := ia_random w |})) = Ok r ->
              p (snd (fst r)) = p self /\
              apply_always (snd (fst r)) = apply_always self /\
              apply_image (snd (fst r)) = apply_image self /\
              apply_mask (snd (fst r)) = apply_mask self).
  { intros [[image1 self1] w1].
    destruct (apply_image self) eqn:Eai; intros Hrun.
    - apply transform_keeps_flags in Hrun. cbn [fst snd].
      destruct Hrun as (H1 & H2 & H3 & H4 & _).
      repeat split; congruence.
    - injection Hrun as _ <- _. cbn [fst snd]. repeat split; congruence. }
  destruct (if apply_image self then _ else _) as [[[image1 self1] w1] |];
    cbn [bind]; [| intros Hrun; discriminate Hrun].
  specialize (Himage _ eq_refl). cbn [fst snd] in Himage.
  destruct Himage as (Hp & Haa & Hai & Ham).
  destruct mask as [| z | m | o]; cbn [bind].
  - intros Hrun. injection Hrun as _ <- _. repeat split; congruence.
  - intros Hrun. injection Hrun as _ <- _. repeat split; congruence.
  - destruct (apply_mask self1) eqn:Eam.
    + destruct (transform B self1 m Mask w1) as [[[m' self2] w2] |] eqn:Hm;
        cbn [bind]; intros Hrun; [| discriminate Hrun].
      injection Hrun as _ <- _.
      apply transform_keeps_flags in Hm.
      destruct Hm as (Hp' & Haa' & Hai' & Ham' & _).
      repeat split; congruence.
    + cbn [bind]. intros Hrun. injection Hrun as _ <- _.
      repeat split; congruence.
  - intros Hrun. injection Hrun as _ <- _. repeat split; congruence.
Qed.

(** X11: a transform other than SamplePatch, Rotate, Rotate90n and Scale
    holds no state: a successful call returns the very instance it was
    called on, and it has consumed exactly one draw of [np.random], the
    one of the gate. *)
Theorem call_stateless (self self' : transformer) (image : ndarray A)
  (mask : pyobj) (w w' : world) (value : call_result) :
  shares_geometry (cls self) = false ->
  call B self image mask w = Ok (value, self', w') ->
  self' = self /\ np_random w' = tape_tail (np_random w).
Proof.
  intros Hs. unfold call. cbn [np_random_rand].
  destruct (should_apply self (np_random w O));
    [| cbn [bind]; intros Hrun; injection Hrun as _ <- <-; split; reflexivity].
  unfold apply_halves.
  destruct (apply_image self).
  - destruct (transform B self image Image _)
      as [[[image1 self1] w1] |] eqn:Hi; cbn [bind];
      [| intros Hrun; discriminate Hrun].
    destruct (transform_stateless _ _ _ _ Hs Hi) as [-> Hw1].
    cbn [np_random] in Hw1.
    destruct mask as [| z | m | o]; cbn [bind];
      try (intros Hrun; injection Hrun as _ <- <-; split;
           [reflexivity | exact Hw1]).
    destruct (apply_mask self).
    + destruct (transform B self m Mask w1) as [[[m' self2] w2] |] eqn:Hm;
        cbn [bind]; intros Hrun; [| discriminate Hrun].
      injection Hrun as _ <- <-.
      destruct (transform_stateless _ _ _ _ Hs Hm) as [-> Hw2].
      split; [reflexivity | congruence].
    + cbn [bind]. intros Hrun. injection Hrun as _ <- <-.
      split; [reflexivity | exact Hw1].
  - cbn [bind].
    destruct mask as [| z | m | o]; cbn [bind];
      try (intros Hrun; injection Hrun as _ <- <-; split; reflexivity).
    destruct (apply_mask self).
    + destruct (transform B self m Mask _) as [[[m' self2] w2] |] eqn:Hm;
        cbn [bind]; intros Hrun; [| discriminate Hrun].
      injection Hrun as _ <- <-.
      destruct (transform_stateless _ _ _ _ Hs Hm) as [-> Hw2].
      split; [reflexivity | exact Hw2].
    + cbn [bind]. intros Hrun. injection Hrun as _ <- <-.
      split; reflexivity.
Qed.

End FrameProperties.

Lemma call_keeps_flags_witness :
  exists value self' w',
    call Sample.backend (SamplePatch_init 2 default_kwargs)
      Sample.image_4x4 (PyArray Sample.image_4x4) Sample.quarter
    = Ok (value, self', w') /\
    p self' = (1 # 2)%Q /\ apply_always self' = true.
Proof.
  eexists _, _, _. split; [reflexivity |].
  destruct (call_keeps_flags Sample.backend
              (SamplePatch_init 2 default_kwargs) Sample.image_4x4
              (PyArray Sample.image_4x4) Sample.quarter eq_refl)
    as (Hp & Haa & _).
  split; [exact Hp | exact Haa].
Defined.

Lemma call_stateless_witness :
  exists value w',
    call Sample.backend (RandomHorizontalFlip_init default_kwargs)
      Sample.image_2x3 (PyArray Sample.image_4x4) Sample.quarter
    = Ok (value, RandomHorizontalFlip_init default_kwargs, w') /\
    np_random w' = tape_tail (np_random Sample.quarter).
Proof.
  eexists _, _. split; [reflexivity |].
  exact (proj2 (call_stateless Sample.backend
                  (RandomHorizontalFlip_init default_kwargs)
                  Sample.image_2x3 (PyArray Sample.image_4x4)
                  Sample.quarter eq_refl eq_refl)).
Defined.

(** ** Constructors that override the keyword arguments *)

Section ConstructorProperties.
Context {A : Type} (B : Backend A).

(** X12: Add and ContrastNormalization are image-only whatever keyword
    arguments they are given, [apply_mask = True] included: a call runs
    the augmenter on the image at most and returns the mask it was
    given. *)
Theorem photometric_transforms_skip_mask (from_val to_val per_channel : Q)
  (kw : kwargs) (image : ndarray A) (mask : pyobj) (w : world) :
  let w0 := snd (np_random_rand w) in
  (let self := Add_init from_val to_val per_channel kw in
   apply_mask self = false /\
   call B self image mask w =
   if should_apply self (np_random w O) && apply_image self then
     ('(image', w') <-
        Add_transform B from_val to_val per_channel image w0 ;;
      Ok (pack image' mask, self, w'))
   else Ok (pack image mask, self, w0)) /\
  (let self := ContrastNormalization_init from_val to_val per_channel kw in
   apply_mask self = false /\
   call B self image mask w =
   if should_apply self (np_random w O) && apply_image self then
     ('(image', w') <-
        ContrastNormalization_transform B from_val to_val per_channel
          image w0 ;;
      Ok (pack image' mask, self, w'))
   else Ok (pack image mask, self, w0)).
Proof.
  intros w0. subst w0. cbv zeta. cbn [np_random_rand snd].
  split; (split; [reflexivity |]);
    unfold call; cbn [np_random_rand];
    match goal with
    | |- context [should_apply ?s ?r] => destruct (should_apply s r)
    end; cbn [andb bind];
    try (destruct mask; reflexivity);
    unfold apply_halves;
    match goal with
    | |- context [apply_image ?s] => destruct (apply_image s)
    end; cbn [bind];
    try (destruct mask; reflexivity);
    unfold transform; cbn [cls Add_init ContrastNormalization_init
                             set_apply_mask BaseImageMaskTransformer_init].
  - destruct (Add_transform B from_val to_val per_channel image _)
      as [[image' w'] |]; cbn [bind]; [| reflexivity].
    destruct mask; reflexivity.
  - destruct (ContrastNormalization_transform B from_val to_val per_channel
                image _) as [[image' w'] |]; cbn [bind]; [| reflexivity].
    destruct mask; reflexivity.
Qed.

(** X13: Resize, CopyNumpy, SamplePatch, MakeBorder and Squarify set
    [apply_always] after the base constructor has read the keyword
    arguments, so their gate passes for every [p] and every draw; and a
    call of CopyNumpy returns image and mask with their contents. *)
Theorem always_applied_constructors (kw : kwargs) (r : Q) (size : Z)
  (border : border_arg) (image : ndarray A) (mask : pyobj) (w : world) :
  should_apply (Resize_init size kw) r = true /\
  should_apply (CopyNumpy_init kw) r = true /\
  should_apply (SamplePatch_init size kw) r = true /\
  should_apply (MakeBorder_init border kw) r = true /\
  should_apply (Squarify_init kw) r = true /\
  call B (CopyNumpy_init kw) image mask w
  = Ok (pack image mask, CopyNumpy_init kw, snd (np_random_rand w)).
Proof.
  assert (Hgate : forall c r0,
            should_apply
              (set_apply_always (BaseImageMaskTransformer_init kw c) true) r0
            = true).
  { intros c r0. unfold should_apply. cbn. apply orb_true_r. }
  split; [apply Hgate |]. split; [apply Hgate |]. split; [apply Hgate |].
  split; [unfold should_apply; cbn; apply orb_true_r |].
  split; [apply Hgate |].
  unfold call. cbn [np_random_rand snd].
  unfold CopyNumpy_init at 1. rewrite Hgate. fold (CopyNumpy_init kw).
  unfold apply_halves, transform, CopyNumpy_transform, copy. cbn.
  destruct (kw_apply_image kw); destruct mask as [| z | m | o]; cbn;
    try reflexivity; destruct (kw_apply_mask kw); reflexivity.
Qed.

(** X14: [p] is the probability of skipping: when a call applies with
    some [p] and draw, it applies with every smaller [p] and with every
    larger draw. *)
Theorem gate_is_monotone (self self' : transformer) (r r' : Q) :
  apply_always self' = apply_always self ->
  (p self' <= p self)%Q ->
  (r <= r')%Q ->
  should_apply self r = true ->
  should_apply self' r' = true.
Proof.
  unfold should_apply. intros -> Hp Hr Happly.
  apply orb_true_iff in Happly. apply orb_true_iff.
  destruct Happly as [Hle | Halways]; [left | right; exact Halways].
  apply Qle_bool_iff. apply Qle_bool_iff in Hle.
  apply Qle_trans with (y := p self); [exact Hp |].
  apply Qle_trans with (y := r); assumption.
Qed.

(** X15: MakeBorder given a tuple of fewer than four sizes raises an
    IndexError on every image it is applied to, before cv2 is asked
    anything. *)
Theorem make_border_short_tuple (t : list Z) (kw : kwargs)
  (image : ndarray A) (mode : ImageMaskTransformMode) (w : world) :
  (length t < 4)%nat ->
  transform B (MakeBorder_init (BorderTuple t) kw) image mode w
  = Raise IndexError.
Proof.
  intros Hshort. unfold transform.
  cbn [cls MakeBorder_init set_apply_mask set_apply_always
         BaseImageMaskTransformer_init].
  unfold MakeBorder_transform.
  destruct t as [| a [| b [| c [| d t]]]]; cbn [length] in Hshort;
    try lia; reflexivity.
Qed.

End ConstructorProperties.

Lemma gate_is_monotone_witness :
  should_apply (RandomTranspose_init default_kwargs) (3 # 4) = true.
Proof.
  apply (gate_is_monotone (RandomTranspose_init default_kwargs)
           (RandomTranspose_init default_kwargs) (r := 1 # 2) (r' := 3 # 4)
           eq_refl).
  - apply Qle_refl.
  - unfold Qle. cbn. lia.
  - reflexivity.
Defined.

Lemma make_border_short_tuple_witness :
  transform Sample.backend (MakeBorder_init (BorderTuple [1; 2]%Z)
                              default_kwargs)
    Sample.image_4x4 Image Sample.quarter = Raise IndexError.
Proof.
  apply (make_border_short_tuple Sample.backend [1; 2]%Z default_kwargs
           Sample.image_4x4 Image Sample.quarter).
  cbn. lia.
Defined.

(** ** The sampled parameters *)

Lemma choice_in (l : list Z) (w : world) :
  l <> [] ->
  unit_draw (np_random w O) ->
  exists v,
    np_random_choice l w = Ok (v, snd (np_random_rand w)) /\ In v l.
Proof.
  intros Hne Hdraw. unfold np_random_choice.
  destruct (randint_range (low := 0) (high := Z.of_nat (length l)) w)
    as (i & Hrun & Hi); [destruct l; [contradiction | cbn; lia] | exact Hdraw |].
  rewrite Hrun. cbn [bind]. eexists. split; [reflexivity |].
  apply nth_In. lia.
Qed.

(** The exact-arithmetic stand-in keeps the range of
    [np.random.uniform]. *)
Lemma sample_uniform_contract : uniform_contract Sample.backend.
Proof.
  intros low high u Hle [Hlo Hhi]. cbn [float64_uniform Sample.backend].
  assert (H0 : (0 <= (high - low) * u)%Q).
  { apply Qmult_le_0_compat; [lra | exact Hlo]. }
  assert (H1 : (u * (high - low) <= 1 * (high - low))%Q).
  { apply Qmult_le_compat_r; [apply Qlt_le_weak; exact Hhi | lra]. }
  split; lra.
Qed.

Section SamplingProperties.
Context {A : Type} (B : Backend A).

(** X16: the image half of Rotate raises the ValueError of
    [np.random.randint] when [from_val >= to_val]; otherwise it draws an
    integer angle with [from_val <= angle < to_val] ([to_val] itself is
    never used), calls the augmenter with [rotate] equal to that angle and
    returns the instance whose augmenter has [rotate] equal to that angle,
    scale and mode being as before. *)
Theorem rotate_angle_range (self : transformer) (from_val to_val : Z)
  (md : string) (aug : Affine) (image : ndarray A) (w : world) :
  cls self = Rotate from_val to_val md aug ->
  unit_draw (np_random w O) ->
  ((to_val <= from_val)%Z ->
   transform B self image Image w = Raise ValueError) /\
  ((from_val < to_val)%Z ->
   exists angle,
     (from_val <= angle < to_val)%Z /\
     transform B self image Image w =
     (image' <-
        iaa_Affine_augment_image B
          (mk_Affine (affine_scale aug) angle (affine_mode aug)) image ;;
      Ok (image',
          mk_transformer (p self) (apply_always self) (apply_image self)
            (apply_mask self)
            (Rotate from_val to_val md
               (mk_Affine (affine_scale aug) angle (affine_mode aug))),
          snd (np_random_rand w)))).
Proof.
  intros Hcls Hdraw. unfold transform. rewrite Hcls.
  unfold Rotate_transform. split.
  - intros Hempty. rewrite randint_empty by exact Hempty. reflexivity.
  - intros Hlt.
    destruct (randint_range w Hlt Hdraw) as (angle & Hrun & Hangle).
    exists angle. split; [exact Hangle |].
    rewrite Hrun. cbn [bind]. unfold set_rotate, set_cls.
    destruct (iaa_Affine_augment_image B _ image); reflexivity.
Qed.

(** X17: the image half of Rotate90n never fails at sampling: it rotates
    by one of 0, 90, 180 and 270 degrees and stores that angle. *)
Theorem rotate90n_angle (kw : kwargs) (image : ndarray A) (w : world) :
  unit_draw (np_random w O) ->
  exists angle,
    In angle [0; 90; 180; 270]%Z /\
    transform B (Rotate90n_init kw) image Image w =
    (image' <-
       iaa_Affine_augment_image B (iaa_Affine 1 angle "constant") image ;;
     Ok (image',
         set_cls (Rotate90n_init kw)
           (Rotate90n [0; 90; 180; 270]%Z (iaa_Affine 1 angle "constant")),
         snd (np_random_rand w))).
Proof.
  intros Hdraw.
  destruct (choice_in (l := [0; 90; 180; 270]%Z) w) as (angle & Hrun & Hin);
    [discriminate | exact Hdraw |].
  exists angle. split; [exact Hin |].
  unfold transform.
  cbn [cls Rotate90n_init BaseImageMaskTransformer_init].
  unfold Rotate90n_transform. rewrite Hrun. cbn [bind].
  destruct (iaa_Affine_augment_image B _ image); reflexivity.
Qed.

(** X18: the image half of Scale never fails at sampling: it draws the
    factor [np.random.uniform(from_val, to_val)] from one draw of the
    generator, calls the augmenter with [scale] equal to that factor and
    returns the instance whose augmenter has [scale] equal to that factor,
    rotate and mode being as before; within the range numpy documents for
    [uniform], the factor lies in [from_val, to_val], [to_val]
    included. *)
Theorem scale_factor_range (self : transformer) (from_val to_val : Q)
  (md : string) (aug : Affine) (image : ndarray A) (w : world) :
  cls self = Scale from_val to_val md aug ->
  uniform_contract B ->
  (from_val <= to_val)%Q ->
  unit_draw (np_random w O) ->
  exists scale,
    scale = float64_uniform B from_val to_val (np_random w O) /\
    (from_val <= scale)%Q /\ (scale <= to_val)%Q /\
    transform B self image Image w =
    (image' <-
       iaa_Affine_augment_image B
         (mk_Affine scale (affine_rotate aug) (affine_mode aug)) image ;;
     Ok (image',
         mk_transformer (p self) (apply_always self) (apply_image self)
           (apply_mask self)
           (Scale from_val to_val md
              (mk_Affine scale (affine_rotate aug) (affine_mode aug))),
         snd (np_random_rand w))).
Proof.
  intros Hcls Hcontract Hle Hdraw.
  destruct (Hcontract from_val to_val (np_random w O) Hle Hdraw)
    as [Hlo Hhi].
  eexists. split; [reflexivity |].
  split; [exact Hlo |]. split; [exact Hhi |].
  unfold transform. rewrite Hcls. unfold Scale_transform, np_random_uniform.
  cbn [np_random_rand bind snd]. unfold set_scale, set_cls.
  destruct (iaa_Affine_augment_image B _ image); reflexivity.
Qed.

(** X19: the mask half of SamplePatch never fails on an array of two or
    more dimensions and never checks the window against it: with a stored
    offset and a [patch_size] that are not negative, the window is clipped
    to the array, so a mask smaller than the window gives a smaller
    patch without any error. *)
Theorem sample_patch_mask_half_clips (self : transformer)
  (patch_size c_h c_w : Z) (mask : ndarray A) (H W : nat)
  (rest : list nat) (w : world) :
  cls self = SamplePatch patch_size c_h c_w ->
  shape mask = H :: W :: rest ->
  (0 <= patch_size)%Z -> (0 <= c_h)%Z -> (0 <= c_w)%Z ->
  exists out,
    transform B self mask Mask w = Ok (out, self, w) /\
    shape out
    = (Nat.min (Z.to_nat (c_h + patch_size)) H - Nat.min (Z.to_nat c_h) H)%nat
      :: (Nat.min (Z.to_nat (c_w + patch_size)) W
          - Nat.min (Z.to_nat c_w) W)%nat
      :: rest.
Proof.
  intros Hcls Hshape Hps Hh Hw. unfold transform. rewrite Hcls.
  unfold SamplePatch_transform. cbn [bind fst snd].
  unfold getitem_slices. rewrite Hshape. cbn [slice_shape option_map bind].
  assert (Hbound : forall x n, (0 <= x)%Z ->
            slice_bound x n = Nat.min (Z.to_nat x) n).
  { intros x n Hx. unfold slice_bound.
    destruct (Z.ltb_spec x 0) as [Hneg | _]; lia. }
  eexists. split.
  - destruct self as [pr aa ai am c]. cbn [cls] in Hcls. subst c.
    reflexivity.
  - cbn [shape]. unfold slice_length. cbn [fst snd].
    rewrite !Hbound by lia. reflexivity.
Qed.

End SamplingProperties.

Lemma rotate_angle_range_witness :
  transform Sample.backend (Rotate_init (-20) 20 "reflect" default_kwargs)
    Sample.image_4x4 Image Sample.quarter
  = Ok (Sample.image_4x4,
        mk_transformer (1 # 2) false true true
          (Rotate (-20) 20 "reflect" (mk_Affine 1 (-10) "reflect")),
        snd (np_random_rand Sample.quarter)).
Proof.
  assert (Hdraw : unit_draw (np_random Sample.quarter O)).
  { split; vm_compute; [discriminate | reflexivity]. }
  destruct (rotate_angle_range Sample.backend
              (Rotate_init (-20) 20 "reflect" default_kwargs)
              Sample.image_4x4 Sample.quarter eq_refl Hdraw) as (_ & Hok).
  destruct (Hok eq_refl) as (angle & Hrange & Hrun).
  assert (Hvalue :
    transform Sample.backend (Rotate_init (-20) 20 "reflect" default_kwargs)
      Sample.image_4x4 Image Sample.quarter
    = Ok (Sample.image_4x4,
          mk_transformer (1 # 2) false true true
            (Rotate (-20) 20 "reflect" (mk_Affine 1 (-10) "reflect")),
          snd (np_random_rand Sample.quarter))) by reflexivity.
  rewrite Hrun in Hvalue |- *. exact Hvalue.
Defined.

Lemma rotate90n_angle_witness :
  exists angle,
    In angle [0; 90; 180; 270]%Z /\
    transform Sample.backend (Rotate90n_init default_kwargs)
      Sample.image_4x4 Image Sample.quarter
    = Ok (Sample.image_4x4,
          set_cls (Rotate90n_init default_kwargs)
            (Rotate90n [0; 90; 180; 270]%Z (iaa_Affine 1 angle "constant")),
          snd (np_random_rand Sample.quarter)).
Proof.
  assert (Hdraw : unit_draw (np_random Sample.quarter O)).
  { split; vm_compute; [discriminate | reflexivity]. }
  destruct (rotate90n_angle Sample.backend default_kwargs Sample.image_4x4
              Sample.quarter Hdraw) as (angle & Hin & Hrun).
  exists angle. split; [exact Hin | exact Hrun].
Defined.

Lemma scale_factor_range_witness :
  exists scale,
    ((4 # 5) <= scale)%Q /\ (scale <= (6 # 5))%Q /\
    transform Sample.backend
      (Scale_init (4 # 5) (6 # 5) "reflect" default_kwargs)
      Sample.image_4x4 Image Sample.quarter
    = Ok (Sample.image_4x4,
          mk_transformer (1 # 2) false true true
            (Scale (4 # 5) (6 # 5) "reflect" (mk_Affine scale 0 "reflect")),
          snd (np_random_rand Sample.quarter)).
Proof.
  assert (Hdraw : unit_draw (np_random Sample.quarter O)).
  { split; vm_compute; [discriminate | reflexivity]. }
  assert (Hle : ((4 # 5) <= (6 # 5))%Q) by (vm_compute; discriminate).
  destruct (scale_factor_range (B := Sample.backend)
              (Scale_init (4 # 5) (6 # 5) "reflect" default_kwargs)
              Sample.image_4x4 Sample.quarter eq_refl
              sample_uniform_contract Hle Hdraw)
    as (scale & _ & Hlo & Hhi & Hrun).
  exists scale. repeat split; assumption.
Defined.

Lemma sample_patch_mask_half_clips_witness :
  exists out,
    transform Sample.backend (SamplePatch_init 3 default_kwargs)
      Sample.image_2x3 Mask Sample.quarter
    = Ok (out, SamplePatch_init 3 default_kwargs, Sample.quarter) /\
    shape out = [2; 3]%nat.
Proof.
  destruct (sample_patch_mask_half_clips Sample.backend
              (SamplePatch_init 3 default_kwargs) Sample.image_2x3
              Sample.quarter eq_refl eq_refl)
    as (out & Hrun & Hshape); try (cbn; lia).
  exists out. split; [exact Hrun | exact Hshape].
Defined.

(** ** Normalize and ToTensor on any input *)

Section PostTransformProperties.
Variable F : Type.
Variable of_Z : Z -> F.
Variable astype_float32 : F -> F.
Variables fsub fdiv : F -> F -> F.

(** An operation with [out=data] against a vector of one entry per
    channel pairs every element with the entry of its channel. *)
Lemma binary_out_per_channel (op : F -> F -> F) (data b : ndarray F)
  (H W C : nat) :
  shape data = [H; W; C] ->
  shape b = [1; 1; C]%nat ->
  exists out,
    binary_out op data b = Ok out /\
    shape out = [H; W; C] /\
    forall i j c, (c < C)%nat ->
      item out [i; j; c]
      = op (item data [i; j; c]) (item b [O; O; c]).
Proof.
  intros Hdata Hb. unfold binary_out.
  rewrite Hdata, Hb, (broadcast_channel H W (or_introl eq_refl)).
  destruct (list_eq_dec Nat.eq_dec [H; W; C] [H; W; C]) as [_ | Hne];
    [| exfalso; apply Hne; reflexivity].
  eexists. split; [reflexivity |]. split; [reflexivity |].
  intros i j c Hc. cbn.
  destruct (Nat.eqb_spec C 1) as [-> | _]; [| reflexivity].
  assert (c = O) by lia. subst c. reflexivity.
Qed.

Lemma channel_vector_sequence (xs : list F) (d : F) :
  shape (channel_vector of_Z astype_float32 (Sequence xs))
    = [1; 1; length xs]%nat /\
  forall c, (c < length xs)%nat ->
    item (channel_vector of_Z astype_float32 (Sequence xs)) [O; O; c]
    = astype_float32 (nth c xs d).
Proof.
  split; [reflexivity |].
  intros c Hc. cbn [channel_vector item nth].
  rewrite (nth_indep _ _ (astype_float32 d)) by (rewrite length_map; exact Hc).
  apply map_nth.
Qed.

(** X20: on (H, W, C) data, with one mean and one std per channel: when
    [divide] is set or the data is of a floating dtype, Normalize returns
    an array of the same shape whose element (i, j, c) is
    [(x - mean[c]) / std[c]], where [x] is the input element, divided by
    255 first when [divide] is set; with [divide] unset on data of an
    integer dtype it raises a TypeError, the floating result not being
    castable into the input array. *)
Theorem normalize_per_channel (data : ndarray F) (H W C : nat)
  (means stds : list F) (by_255 : bool) (kind : dtype_kind) (d : F) :
  shape data = [H; W; C] ->
  length means = C ->
  length stds = C ->
  (by_255 = true \/ kind = FloatingKind ->
   exists out,
     Normalize_call of_Z astype_float32 fsub fdiv
       (Normalize_init of_Z astype_float32 (Sequence means) (Sequence stds)
          by_255)
       kind data = Ok out /\
     shape out = [H; W; C] /\
     forall i j c, (c < C)%nat ->
       item out [i; j; c]
       = fdiv
           (fsub
              (if by_255
               then fdiv (astype_float32 (item data [i; j; c]))
                         (float32 of_Z astype_float32 255)
               else item data [i; j; c])
              (astype_float32 (nth c means d)))
           (astype_float32 (nth c stds d))) /\
  (by_255 = false -> kind = IntegerKind ->
   Normalize_call of_Z astype_float32 fsub fdiv
     (Normalize_init of_Z astype_float32 (Sequence means) (Sequence stds)
        by_255)
     kind data = Raise TypeError).
Proof.
  intros Hshape Hmeans Hstds.
  unfold Normalize_call, Normalize_init. cbn [divide mean std].
  split; [| intros -> ->; reflexivity].
  intros Hfloat.
  assert (Hkind : (if by_255 then FloatingKind else kind) = FloatingKind).
  { destruct Hfloat as [-> | ->]; [reflexivity | destruct by_255; reflexivity]. }
  rewrite Hkind. cbn [ufunc_out].
  destruct (channel_vector_sequence means d) as [Hsm Him].
  destruct (channel_vector_sequence stds d) as [Hss His].
  rewrite Hmeans in Hsm, Him. rewrite Hstds in Hss, His.
  set (input := if by_255
                then np_divide_float32 of_Z astype_float32 fdiv data 255
                else data).
  assert (Hinput : shape input = [H; W; C]).
  { unfold input. destruct by_255; exact Hshape. }
  destruct (binary_out_per_channel fsub input _ Hinput Hsm)
    as (d1 & Hrun1 & Hshape1 & Hitem1).
  rewrite Hrun1. cbn [bind].
  destruct (binary_out_per_channel fdiv d1 _ Hshape1 Hss)
    as (d2 & Hrun2 & Hshape2 & Hitem2).
  rewrite Hrun2. cbn [bind].
  exists d2. split; [reflexivity |]. split; [exact Hshape2 |].
  intros i j c Hc.
  rewrite (Hitem2 i j c Hc), (Hitem1 i j c Hc), (Him c Hc), (His c Hc).
  unfold input. destruct by_255; reflexivity.
Qed.

(** X21: Normalize with [divide] set raises a ValueError on every array
    of two dimensions, whatever its dtype and whatever mean and std are:
    the (1, 1, -1) vectors broadcast it to three dimensions, which the
    output operand does not have. *)
Theorem normalize_rejects_two_dimensions (data : ndarray F) (H W : nat)
  (means stds : array_like F) (kind : dtype_kind) :
  shape data = [H; W] ->
  Normalize_call of_Z astype_float32 fsub fdiv
    (Normalize_init of_Z astype_float32 means stds true) kind data
  = Raise ValueError.
Proof.
  intros Hshape. unfold Normalize_call, Normalize_init.
  cbn [divide mean std ufunc_out].
  assert (Hvec : exists K,
            shape (channel_vector of_Z astype_float32 means) = [1; 1; K]%nat).
  { destruct means; eexists; reflexivity. }
  destruct Hvec as (K & Hvec).
  unfold binary_out at 1. cbn [np_divide_float32 map_elements shape].
  rewrite Hshape, Hvec. unfold broadcast_shapes.
  cbn [rev app broadcast_rev].
  repeat match goal with
         | |- context [if (?a =? ?b)%nat then _ else _] =>
             destruct (a =? b)%nat
         end;
    cbn [option_map rev app];
    try reflexivity;
    match goal with
    | |- context [list_eq_dec Nat.eq_dec ?s ?t] =>
        destruct (list_eq_dec Nat.eq_dec s t) as [E | _];
        [discriminate E | reflexivity]
    end.
Qed.

(** X22: on (H, W, C) data, when mean is a sequence whose length is
    neither C nor 1, Normalize raises a ValueError if [divide] is set or
    the data is of a floating dtype; with [divide] unset on data of an
    integer dtype the TypeError of the refused cast comes first. *)
Theorem normalize_rejects_channel_mismatch (data : ndarray F) (H W C : nat)
  (means : list F) (stds : array_like F) (by_255 : bool)
  (kind : dtype_kind) :
  shape data = [H; W; C] ->
  length means <> C ->
  length means <> 1%nat ->
  (by_255 = true \/ kind = FloatingKind ->
   Normalize_call of_Z astype_float32 fsub fdiv
     (Normalize_init of_Z astype_float32 (Sequence means) stds by_255)
     kind data = Raise ValueError) /\
  (by_255 = false -> kind = IntegerKind ->
   Normalize_call of_Z astype_float32 fsub fdiv
     (Normalize_init of_Z astype_float32 (Sequence means) stds by_255)
     kind data = Raise TypeError).
Proof.
  intros Hshape HC H1. unfold Normalize_call, Normalize_init.
  cbn [divide mean std].
  split; [| intros -> ->; reflexivity].
  intros Hfloat.
  assert (Hkind : (if by_255 then FloatingKind else kind) = FloatingKind).
  { destruct Hfloat as [-> | ->]; [reflexivity | destruct by_255; reflexivity]. }
  rewrite Hkind. cbn [ufunc_out].
  set (input := if by_255
                then np_divide_float32 of_Z astype_float32 fdiv data 255
                else data).
  assert (Hinput : shape input = [H; W; C]).
  { unfold input. destruct by_255; exact Hshape. }
  unfold binary_out at 1. rewrite Hinput.
  cbn [channel_vector shape]. unfold broadcast_shapes.
  cbn [rev app broadcast_rev].
  destruct (Nat.eqb_spec C (length means)) as [E | _];
    [symmetry in E; contradiction |].
  destruct (Nat.eqb_spec (length means) 1) as [E | _]; [contradiction |].
  destruct (C =? 1)%nat; [| reflexivity].
  repeat match goal with
         | |- context [if (?a =? ?b)%nat then _ else _] =>
             destruct (a =? b)%nat
         end;
    cbn [option_map rev app bind];
    try reflexivity;
    match goal with
    | |- context [list_eq_dec Nat.eq_dec ?s ?t] =>
        destruct (list_eq_dec Nat.eq_dec s t) as [E | _];
        [exfalso; injection E; intros; congruence | reflexivity]
    end.
Qed.

(** X23: ToTensor with [transpose] set raises a ValueError on every array
    that does not have exactly three dimensions, whatever the other
    options are. *)
Theorem to_tensor_transpose_needs_three_axes (data : ndarray F)
  (divide contiguous to_torch : bool) :
  ndim data <> 3%nat ->
  ToTensor_call of_Z astype_float32 fdiv
    (ToTensor_init divide true contiguous to_torch) data
  = Raise ValueError.
Proof.
  intros Hrank. unfold ToTensor_call, ToTensor_init. cbn [tt_transpose].
  unfold transpose, is_permutation. cbn [length].
  destruct (Nat.eqb_spec 3 (ndim data)) as [E | _];
    [symmetry in E; contradiction | reflexivity].
Qed.

End PostTransformProperties.

Lemma normalize_per_channel_witness :
  (exists out,
     Normalize_call inject_Z (fun x => x) Qminus Qdiv
       (Normalize_init inject_Z (fun x => x)
          (Sequence [0; 0; 0]%Q) (Sequence [255 # 1; 255 # 1; 255 # 1])
          false)
       FloatingKind (full [2; 2; 3]%nat (510 # 1)) = Ok out /\
     shape out = [2; 2; 3]%nat /\
     item out [0; 1; 2]%nat = (((510 # 1) - 0) / (255 # 1))%Q) /\
  Normalize_call inject_Z (fun x => x) Qminus Qdiv
    (Normalize_init inject_Z (fun x => x)
       (Sequence [0; 0; 0]%Q) (Sequence [255 # 1; 255 # 1; 255 # 1])
       false)
    IntegerKind (full [2; 2; 3]%nat (510 # 1)) = Raise TypeError.
Proof.
  split.
  - destruct (normalize_per_channel inject_Z (fun x => x) Qminus Qdiv
                (full [2; 2; 3]%nat (510 # 1))
                [0; 0; 0]%Q [255 # 1; 255 # 1; 255 # 1] false FloatingKind
                0%Q eq_refl eq_refl eq_refl) as (Hok & _).
    destruct (Hok (or_intror eq_refl)) as (out & Hrun & Hshape & Hitem).
    exists out. split; [exact Hrun |]. split; [exact Hshape |].
    apply (Hitem 0%nat 1%nat 2%nat). lia.
  - apply (normalize_per_channel inject_Z (fun x => x) Qminus Qdiv
             (full [2; 2; 3]%nat (510 # 1))
             [0; 0; 0]%Q [255 # 1; 255 # 1; 255 # 1] false IntegerKind
             0%Q eq_refl eq_refl eq_refl); reflexivity.
Defined.

Lemma normalize_rejects_two_dimensions_witness :
  Normalize_call inject_Z (fun x => x) Qminus Qdiv
    (Normalize_init inject_Z (fun x => x) (Scalar 0%Q) (Scalar 1%Q) true)
    IntegerKind (full [4; 4]%nat (510 # 1)) = Raise ValueError.
Proof.
  exact (normalize_rejects_two_dimensions inject_Z (fun x => x) Qminus Qdiv
           (full [4; 4]%nat (510 # 1)) (Scalar 0%Q) (Scalar 1%Q)
           IntegerKind eq_refl).
Defined.

Lemma normalize_rejects_channel_mismatch_witness :
  Normalize_call inject_Z (fun x => x) Qminus Qdiv
    (Normalize_init inject_Z (fun x => x) (Sequence [0; 0]%Q) (Scalar 1%Q)
       true)
    IntegerKind (full [2; 2; 3]%nat (510 # 1)) = Raise ValueError.
Proof.
  assert (H3 : length [0; 0]%Q <> 3%nat) by (cbn; lia).
  assert (H1 : length [0; 0]%Q <> 1%nat) by (cbn; lia).
  apply (normalize_rejects_channel_mismatch inject_Z (fun x => x) Qminus
           Qdiv (full [2; 2; 3]%nat (510 # 1)) [0; 0]%Q (Scalar 1%Q) true
           IntegerKind eq_refl H3 H1).
  left. reflexivity.
Defined.

Lemma to_tensor_transpose_needs_three_axes_witness :
  ToTensor_call inject_Z (fun x => x) Qdiv
    (ToTensor_init false true false false) (full [4; 4]%nat (510 # 1))
  = Raise ValueError.
Proof.
  apply (to_tensor_transpose_needs_three_axes inject_Z (fun x => x) Qdiv
           (full [4; 4]%nat (510 # 1)) false false false).
  cbn. lia.
Defined.

(** ** The dataset, beyond the index *)

Section DatasetProperties.
Context {A : Type} (B : Backend A).

(** X24: a successful [get(index)] leaves the lists of images and masks,
    the length and the two post-transforms of the dataset as they were;
    only the instances of the paired transform can change. *)
Theorem getitem_keeps_dataset (self self' : BaseImageSegmentationDataset)
  (index : Z) (w w' : world) (image mask : pyobj) :
  getitem B self index w = Ok (image, mask, self', w') ->
  images self' = images self /\
  masks self' = masks self /\
  len self' = len self /\
  image_transform self' = image_transform self /\
  mask_transform self' = mask_transform self.
Proof.
  unfold getitem.
  destruct (_load_image_and_mask B self index) as [[image0 mask0] |];
    cbn [bind]; [| intros Hrun; discriminate Hrun].
  unfold _apply_transforms.
  assert (Hpair :
    forall r,
      match pair_transform self with
      | Some t =>
          '(image', mask', t', w1) <- call_pair_transform B t image0 mask0 w ;;
          Ok (image', mask', set_pair_transform self (Some t'), w1)
      | None => Ok (image0, mask0, self, w)
      end = Ok r ->
      images (snd (fst r)) = images self /\
      masks (snd (fst r)) = masks self /\
      len (snd (fst r)) = len self /\
      image_transform (snd (fst r)) = image_transform self /\
      mask_transform (snd (fst r)) = mask_transform self).
  { intros r. destruct (pair_transform self) as [t |].
    - destruct (call_pair_transform B t image0 mask0 w)
        as [[[[image1 mask1] t1] w1] |]; cbn [bind]; intros Hrun;
        [| discriminate Hrun].
      injection Hrun as <-. cbn. repeat split.
    - intros Hrun. injection Hrun as <-. cbn. repeat split. }
  destruct (match pair_transform self with Some _ => _ | None => _ end)
    as [[[[image1 mask1] self1] w1] |]; cbn [bind];
    [| intros Hrun; discriminate Hrun].
  specialize (Hpair _ eq_refl). cbn [fst snd] in Hpair.
  destruct (match image_transform self1 with Some _ => _ | None => _ end)
    as [image2 |]; cbn [bind]; [| intros Hrun; discriminate Hrun].
  destruct (match mask_transform self1 with Some _ => _ | None => _ end)
    as [mask2 |]; cbn [bind]; intros Hrun; [| discriminate Hrun].
  injection Hrun as _ _ <- _. exact Hpair.
Qed.

(** X25: the dataset catches nothing from the loader: when the image
    fails to load, [get(index)] raises that same exception, and when the
    image loads but the mask fails to, it raises the exception of the
    mask; no transform runs in either case. *)
Theorem load_errors_propagate (self : BaseImageSegmentationDataset)
  (index : Z) (w : world) (image_filename : string) :
  list_getitem (images self) index = Ok image_filename ->
  (forall e,
     load_image B image_filename false = Raise e ->
     getitem B self index w = Raise e) /\
  (forall image ms mask_filename e,
     load_image B image_filename false = Ok image ->
     masks self = Some ms ->
     list_getitem ms index = Ok mask_filename ->
     load_image B mask_filename true = Raise e ->
     getitem B self index w = Raise e).
Proof.
  intros Hname. unfold getitem, _load_image_and_mask. rewrite Hname.
  cbn [bind]. split.
  - intros e Hload. rewrite Hload. reflexivity.
  - intros image ms mask_filename e Hload Hmasks Hmname Hmload.
    rewrite Hload, Hmasks, Hmname. cbn [bind]. rewrite Hmload. reflexivity.
Qed.

Lemma call_keeps_dense (t t' : transformer) (image m : ndarray A)
  (w w' : world) (value : call_result) :
  call B t image (PyArray m) w = Ok (value, t', w') ->
  exists image' m', value = RetPair image' (PyArray m').
Proof.
  unfold call. cbn [np_random_rand].
  destruct (should_apply t (np_random w O)).
  - unfold apply_halves.
    destruct (if apply_image t then _ else _) as [[[image1 t1] w1] |];
      cbn [bind]; [| intros Hrun; discriminate Hrun].
    destruct (apply_mask t1).
    + destruct (transform B t1 m Mask w1) as [[[m' t2] w2] |]; cbn [bind];
        intros Hrun; [| discriminate Hrun].
      injection Hrun as <- _ _. exists image1, m'. reflexivity.
    + cbn [bind]. intros Hrun. injection Hrun as <- _ _.
      exists image1, m. reflexivity.
  - cbn [bind]. intros Hrun. injection Hrun as <- _ _.
    exists image, m. reflexivity.
Qed.

Lemma compose_keeps_dense (ts ts' : list transformer)
  (image image' m : ndarray A) (mask' : pyobj) (w w' : world) :
  ImageMaskTransformsCompose_call B ts image (PyArray m) w
    = Ok (image', mask', ts', w') ->
  is_ndarray mask' = true.
Proof.
  revert ts' image image' m mask' w w'.
  induction ts as [| t ts IH]; intros ts' image image' m mask' w w' Hrun.
  - cbn in Hrun. injection Hrun as _ <- _ _. reflexivity.
  - cbn [ImageMaskTransformsCompose_call] in Hrun.
    destruct (call B t image (PyArray m) w) as [[[value t1] w1] |] eqn:Hcall;
      [| discriminate Hrun].
    apply call_keeps_dense in Hcall. destruct Hcall as (image1 & m1 & ->).
    cbn [bind unpack_pair] in Hrun.
    destruct (ImageMaskTransformsCompose_call B ts image1 (PyArray m1) w1)
      as [[[[image2 mask2] ts2] w2] |] eqn:Hrest; [| discriminate Hrun].
    cbn [bind] in Hrun. injection Hrun as _ <- _ _.
    apply IH in Hrest. exact Hrest.
Qed.

(** X26: in a dataset with a list of masks no transformer and no
    composition turns the loaded mask into anything but a dense array:
    without a mask post-transform the mask returned is a dense array, and
    with one it is what the post-transform returned on a dense array, so
    the post-transform is always called. *)
Theorem getitem_mask_stays_dense (self self' : BaseImageSegmentationDataset)
  (ms : list string) (index : Z) (w w' : world) (image mask : pyobj) :
  masks self = Some ms ->
  getitem B self index w = Ok (image, mask, self', w') ->
  match mask_transform self with
  | None => is_ndarray mask = true
  | Some f => exists m, f m = Ok mask
  end.
Proof.
  intros Hmasks. unfold getitem, _load_image_and_mask. rewrite Hmasks.
  destruct (list_getitem (images self) index) as [name |]; cbn [bind];
    [| intros Hrun; discriminate Hrun].
  destruct (load_image B name false) as [image0 |]; cbn [bind];
    [| intros Hrun; discriminate Hrun].
  destruct (list_getitem ms index) as [mname |]; cbn [bind];
    [| intros Hrun; discriminate Hrun].
  destruct (load_image B mname true) as [m0 |]; cbn [bind];
    [| intros Hrun; discriminate Hrun].
  unfold _apply_transforms.
  assert (Hpair :
    forall r,
      match pair_transform self with
      | Some t =>
          '(image', mask', t', w1) <-
            call_pair_transform B t image0 (PyArray m0) w ;;
          Ok (image', mask', set_pair_transform self (Some t'), w1)
      | None => Ok (image0, PyArray m0, self, w)
      end = Ok r ->
      is_ndarray (snd (fst (fst r))) = true /\
      mask_transform (snd (fst r)) = mask_transform self).
  { intros r. destruct (pair_transform self) as [[t | ts] |].
    - cbn [call_pair_transform].
      destruct (call B t image0 (PyArray m0) w) as [[[value t1] w1] |]
        eqn:Hcall; cbn [bind]; [| intros Hrun; discriminate Hrun].
      apply call_keeps_dense in Hcall. destruct Hcall as (image1 & m1 & ->).
      cbn [bind unpack_pair]. intros Hrun. injection Hrun as <-.
      split; reflexivity.
    - cbn [call_pair_transform].
      destruct (ImageMaskTransformsCompose_call B ts image0 (PyArray m0) w)
        as [[[[image1 mask1] ts1] w1] |] eqn:Hc; cbn [bind];
        intros Hrun; [| discriminate Hrun].
      injection Hrun as <-. cbn [fst snd].
      apply compose_keeps_dense in Hc. split; [exact Hc | reflexivity].
    - intros Hrun. injection Hrun as <-. split; reflexivity. }
  destruct (match pair_transform self with Some _ => _ | None => _ end)
    as [[[[image1 mask1] self1] w1] |]; cbn [bind];
    [| intros Hrun; discriminate Hrun].
  specialize (Hpair _ eq_refl). cbn [fst snd] in Hpair.
  destruct Hpair as [Hdense Hsame]. rewrite <- Hsame.
  destruct (match image_transform self1 with Some _ => _ | None => _ end)
    as [image2 |]; cbn [bind]; [| intros Hrun; discriminate Hrun].
  destruct mask1 as [| z | m1 | o]; try discriminate Hdense.
  destruct (mask_transform self1) as [f |].
  - destruct (f m1) as [m2 |] eqn:Hf; cbn [bind]; intros Hrun;
      [| discriminate Hrun].
    injection Hrun as _ <- _ _. exists m1. exact Hf.
  - cbn [bind]. intros Hrun. injection Hrun as _ <- _ _. reflexivity.
Qed.

End DatasetProperties.

Lemma getitem_keeps_dataset_witness :
  exists image mask self' w',
    getitem Sample.backend SampleData.with_masks 1 Sample.quarter
    = Ok (image, mask, self', w') /\
    len self' = 2%Z /\
    images self' = images SampleData.with_masks.
Proof.
  eexists _, _, _, _. split; [reflexivity |].
  destruct (getitem_keeps_dataset Sample.backend SampleData.with_masks 1
              Sample.quarter eq_refl) as (Himages & _ & Hlen & _).
  split; [exact Hlen | exact Himages].
Defined.

Lemma load_errors_propagate_witness :
  getitem Sample.backend SampleData.unreadable 0 Sample.quarter
  = Raise LoadError.
Proof.
  apply (proj1 (load_errors_propagate Sample.backend SampleData.unreadable
                  0 Sample.quarter eq_refl)).
  reflexivity.
Defined.

Lemma getitem_mask_stays_dense_witness :
  exists image mask self' w',
    getitem Sample.backend SampleData.with_masks (-1) Sample.quarter
    = Ok (image, mask, self', w') /\
    is_ndarray mask = true.
Proof.
  eexists _, _, _, _. split; [reflexivity |].
  apply (getitem_mask_stays_dense Sample.backend SampleData.with_masks
           (-1) Sample.quarter eq_refl eq_refl).
Defined.

(** ** A geometric transform without its image half *)

(** X27: when SamplePatch, Rotate, Rotate90n or Scale is built with
    [apply_image] false, an applying call draws no parameter at all: the
    image is returned as it is, the mask is transformed with whatever
    parameter the instance already stores, the instance is unchanged and
    only the draw of the gate is consumed. *)
Theorem geometry_without_image_half {A : Type} (B : Backend A)
  (self : transformer) (image mask : ndarray A) (w : world) :
  shares_geometry (cls self) = true ->
  should_apply self (np_random w O) = true ->
  apply_image self = false ->
  apply_mask self = true ->
  call B self image (PyArray mask) w =
  (mask' <- apply_parameter B self (cached_parameter self) mask ;;
   Ok (RetPair image (PyArray mask'), self, snd (np_random_rand w))).
Proof.
  intros Hs Hgate Himage Hmask. unfold call. cbn [np_random_rand snd].
  rewrite Hgate. unfold apply_halves. rewrite Himage. cbn [bind].
  rewrite Hmask. rewrite (transform_mask_half B self mask _ Hs).
  destruct (apply_parameter B self (cached_parameter self) mask);
    reflexivity.
Qed.

Lemma geometry_without_image_half_witness :
  let self :=
    SamplePatch_init 2
      {| kw_p := 1 # 2; kw_apply_always := false;
         kw_apply_image := false; kw_apply_mask := true |} in
  exists mask',
    call Sample.backend self Sample.image_4x4 (PyArray Sample.image_4x4)
      Sample.quarter
    = Ok (RetPair Sample.image_4x4 (PyArray mask'), self,
          snd (np_random_rand Sample.quarter)) /\
    shape mask' = [2; 2]%nat.
Proof.
  intros self.
  rewrite (geometry_without_image_half Sample.backend self
             Sample.image_4x4 Sample.image_4x4 Sample.quarter
             eq_refl eq_refl eq_refl eq_refl).
  eexists. split; reflexivity.
Defined.
